(** * PN532 NFC reader driver (firmware/src/lib/pn532.c)

    A shallow embedding of the SPI driver: the bit adapter, the frame
    codec, the ready/acknowledge handshake, the command/response exchange
    and the tag session functions, followed by the properties checked
    against it.

    Bytes are integers in [0, 256); [uint8_t] and [uint32_t] arithmetic is
    written with its wrap-around.  The driver's globals ([readbuf],
    [felica_poll_cache], [wait_loop]) and everything that crosses the pins
    (chip select, delays, SPI transfers) live in one [world] value that is
    threaded through every function. *)

From Stdlib Require Import ZArith List Bool Lia.
Import ListNotations.
Open Scope Z_scope.

(** ** Constants *)

Definition PN532_PREAMBLE : Z := 0.
Definition PN532_STARTCODE1 : Z := 0.
Definition PN532_STARTCODE2 : Z := 0xff.
Definition PN532_POSTAMBLE : Z := 0.

Definition PN532_HOSTTOPN532 : Z := 0xd4.
Definition PN532_PN532TOHOST : Z := 0xd5.

Definition STATUS_READ : Z := 2.
Definition DATA_WRITE : Z := 1.
Definition DATA_READ : Z := 3.

(** ** Machine integers and arrays *)

Definition uint8 (x : Z) : Z := x mod 256.
Definition uint32 (x : Z) : Z := x mod 4294967296.

(** [a[i]] on a byte array. *)
Definition at_ (a : list Z) (i : Z) : Z := nth (Z.to_nat i) a 0.

(** The first [n] cells of an array, and the array from cell [n] on
    ([a + n] in the source). *)
Definition take (n : Z) (a : list Z) : list Z := firstn (Z.to_nat n) a.
Definition drop (n : Z) (a : list Z) : list Z := skipn (Z.to_nat n) a.

(** [memcpy (dst, src, length src)]: the cells of [dst] after the copied
    ones keep their contents. *)
Definition store (src dst : list Z) : list Z := src ++ skipn (length src) dst.

Fixpoint bytes_eqb (a b : list Z) : bool :=
  match a, b with
  | [], [] => true
  | x :: a', y :: b' => (x =? y) && bytes_eqb a' b'
  | _, _ => false
  end.

(** ** Bit adapter *)

(** [reverse_bit]: the loop over [i = 0 .. 7], [y |= 1u << (8 - i - 1)]
    whenever [x & (1u << i)]. *)
Definition reverse_bit (x : Z) : Z :=
  fold_left
    (fun y i =>
       if Z.land x (Z.shiftl 1 i) =? 0 then y
       else uint8 (Z.lor y (Z.shiftl 1 (8 - i - 1))))
    [0; 1; 2; 3; 4; 5; 6; 7] 0.

(** ** The world outside the driver *)

Inductive event : Type :=
| GpioPut (level : bool)      (* gpio_put (gpio_nss, level) *)
| SleepMs (ms : Z)            (* sleep_ms_rtos (ms) *)
| SpiWrite (bytes : list Z)   (* spi_write_blocking, bytes as on the wire *)
| SpiRead (len : Z)           (* spi_read_blocking of len bytes *)
| WaitLoop.                   (* one call of the registered wait_loop *)

(** [felica_poll_cache], a packed struct of 8 + 8 + 2 + 1 bytes. *)
Record felica_cache : Type := mkCache {
  idm : list Z;
  pmm : list Z;
  syscode : list Z;
  inlist_tag : Z
}.

Record world : Type := mkWorld {
  (** what the chip delivers to the successive [spi_read_blocking] calls,
      as wire bytes; a reply shorter than the request is a short read, and
      an exhausted script delivers nothing *)
  miso : list (list Z);
  (** everything done on the pins so far, most recent first *)
  trace : list event;
  (** whether [pn532_set_wait_loop] registered a callback
      ([wait_loop != NULL]); its calls are recorded in [trace] *)
  wait_loop : bool;
  (** [static uint8_t readbuf[255]] *)
  readbuf : list Z;
  felica_poll_cache : felica_cache;
  (** contents of stack cells that the source reads or sends without
      initialising them (indeterminate in C, fixed per world here) *)
  stack_junk : Z
}.

Definition set_miso (m : list (list Z)) (w : world) : world :=
  mkWorld m (trace w) (wait_loop w) (readbuf w) (felica_poll_cache w)
          (stack_junk w).

Definition emit (e : event) (w : world) : world :=
  mkWorld (miso w) (e :: trace w) (wait_loop w) (readbuf w)
          (felica_poll_cache w) (stack_junk w).

Definition set_readbuf (b : list Z) (w : world) : world :=
  mkWorld (miso w) (trace w) (wait_loop w) b (felica_poll_cache w)
          (stack_junk w).

Definition set_felica_poll_cache (c : felica_cache) (w : world) : world :=
  mkWorld (miso w) (trace w) (wait_loop w) (readbuf w) c (stack_junk w).

(** An uninitialised local array of [n] bytes. *)
Definition uninit (n : Z) (w : world) : list Z :=
  repeat (stack_junk w) (Z.to_nat n).

(** Level of the chip-select line after a trace ([pn532_init] leaves it
    high). *)
Fixpoint nss_level (tr : list event) : bool :=
  match tr with
  | [] => true
  | GpioPut l :: _ => l
  | _ :: tr' => nss_level tr'
  end.

(** Number of calls of the idle callback in a trace. *)
Fixpoint wait_loop_calls (tr : list event) : nat :=
  match tr with
  | [] => O
  | WaitLoop :: tr' => S (wait_loop_calls tr')
  | _ :: tr' => wait_loop_calls tr'
  end.

(** ** External collaborators *)

Definition gpio_put (level : bool) (w : world) : world := emit (GpioPut level) w.

Definition sleep_ms_rtos (ms : Z) (w : world) : world := emit (SleepMs ms) w.

(** [spi_write_blocking (spi_port, src, len)] returns the byte count. *)
Definition spi_write_blocking (src : list Z) (len : Z) (w : world)
  : Z * world :=
  (len, emit (SpiWrite (take len src)) w).

(** [spi_read_blocking (spi_port, 0, dst, len)]: the next reply of the chip,
    cut to [len] bytes, lands at the start of [dst]; the result is the
    number of bytes delivered.  A chip that always answers in full gives
    [len], as the SDK's transfer does; shorter replies stand for a
    transfer that fails. *)
Definition spi_read_blocking (dst : list Z) (len : Z) (w : world)
  : Z * list Z * world :=
  let reply := take len (hd [] (miso w)) in
  (Z.of_nat (length reply), store reply dst,
   emit (SpiRead len) (set_miso (tl (miso w)) w)).

(** ** Transfers *)

Definition pn532_write (data : list Z) (len : Z) (w : world) : Z * world :=
  let buffer := reverse_bit DATA_WRITE :: map reverse_bit (take len data) in
  let w1 := gpio_put false w in
  let w2 := sleep_ms_rtos 2 w1 in
  let '(result, w3) := spi_write_blocking buffer (len + 1) w2 in
  let w4 := gpio_put true w3 in
  let w5 := sleep_ms_rtos 2 w4 in
  (result, w5).

Definition pn532_begin_read (mode : Z) (w : world) : world :=
  let w1 := gpio_put false w in
  let w2 := sleep_ms_rtos 2 w1 in
  let mode_data := [reverse_bit mode] in
  snd (spi_write_blocking mode_data 1 w2).

(** [pn532_do_read]: all [len] cells are bit-reversed after the transfer,
    whatever the transfer delivered. *)
Definition pn532_do_read (data : list Z) (len : Z) (w : world)
  : Z * list Z * world :=
  let '(result, data1, w1) := spi_read_blocking data len w in
  (result, store (map reverse_bit (take len data1)) data1, w1).

Definition pn532_end_read (w : world) : world :=
  let w1 := gpio_put true w in
  sleep_ms_rtos 2 w1.

(** ** Handshake *)

(** The body of the [for (retry = 0; retry < 30; retry++)] loop of
    [pn532_wait_ready], with [n] iterations left. *)
Fixpoint wait_ready_loop (n : nat) (w : world) : bool * world :=
  match n with
  | O => (false, w)
  | S n' =>
      let w1 := pn532_begin_read STATUS_READ w in
      let '(result, status, w2) := pn532_do_read [0] 1 w1 in
      let w3 := pn532_end_read w2 in
      if (result =? 1) && (at_ status 0 =? 0x01) then (true, w3)
      else
        let w4 := if wait_loop w3 then emit WaitLoop w3 else w3 in
        let w5 := sleep_ms_rtos 1 w4 in
        wait_ready_loop n' w5
  end.

Definition pn532_wait_ready (w : world) : bool * world :=
  wait_ready_loop 30 w.

Definition read_frame (frame : list Z) (len : Z) (w : world)
  : Z * list Z * world :=
  pn532_do_read frame len w.

Definition write_frame (frame : list Z) (len : Z) (w : world) : Z * world :=
  pn532_write frame len w.

Definition expect_ack : list Z := [0; 0; 0xff; 0; 0xff; 0].

Definition read_ack (w : world) : bool * world :=
  let resp := uninit 6 w in
  let '(ready, w1) := pn532_wait_ready w in
  if negb ready then (false, w1)
  else
    let w2 := pn532_begin_read DATA_READ w1 in
    let '(_, resp1, w3) := read_frame resp 6 w2 in
    let w4 := pn532_end_read w3 in
    if negb (bytes_eqb (take 6 resp1) expect_ack) then (false, w4)
    else (true, w4).

(** ** Frame codec *)

Definition checksum_step (checksum d : Z) : Z := uint8 (checksum + d).

(** The [frame] array that [pn532_write_data] fills: 7 + len bytes. *)
Definition write_data_frame (data : list Z) (len : Z) : list Z :=
  let payload := take len data in
  let checksum := fold_left checksum_step payload 0xff in
  [PN532_PREAMBLE; PN532_STARTCODE1; PN532_STARTCODE2;
   len; uint8 (Z.lnot len + 1)]
    ++ payload
    ++ [uint8 (Z.lnot checksum); PN532_POSTAMBLE].

(** [write_frame] takes its length as a [uint8_t]: [7 + len] wraps. *)
Definition pn532_write_data (data : list Z) (len : Z) (w : world)
  : Z * world :=
  let frame := write_data_frame data len in
  let '(_, w1) := write_frame frame (uint8 (7 + len)) w in
  let '(ack, w2) := read_ack w1 in
  ((if ack then 1 else 0), w2).

(** [pn532_read_data]: [read_frame] takes its length as a [uint8_t], so
    [len + 2] wraps, while [result] is compared with the unwrapped
    [len + 2].  The copy loop runs for [i <= len]: it stores [len + 1]
    bytes into [data], the checksum byte landing at [data[len]]. *)
Definition pn532_read_data (data : list Z) (len : Z) (w : world)
  : Z * list Z * world :=
  let resp0 := uninit (len + 2) w in
  let '(result, resp, w1) := read_frame resp0 (uint8 (len + 2)) w in
  if negb (result =? len + 2) then (-1, data, w1)
  else
    let data1 := store (take (len + 1) resp) data in
    let checksum := fold_left checksum_step (take (len + 1) resp) 0 in
    if negb (checksum =? 0) then (-1, data1, w1)
    else if negb (at_ resp (len + 1) =? PN532_POSTAMBLE) then (-1, data1, w1)
    else (len, data1, w1).

(** ** Command / response exchange *)

Definition pn532_write_command (cmd : Z) (param : list Z) (len : Z)
  (w : world) : Z * world :=
  let data := [PN532_HOSTTOPN532; cmd] ++ take len param in
  pn532_write_data data (uint8 (len + 2)) w.

Definition pn532_peak_response_len (w : world) : Z * world :=
  let '(_, buf, w1) := pn532_do_read (uninit 5 w) 5 w in
  if negb (at_ buf 0 =? PN532_PREAMBLE)
     || negb (at_ buf 1 =? PN532_STARTCODE1)
     || negb (at_ buf 2 =? PN532_STARTCODE2)
  then (-1, w1)
  else
    let length := at_ buf 3 in
    let length_check := uint8 (length + at_ buf 4) in
    if negb (length_check =? 0) then (-1, w1)
    else (at_ buf 3, w1).

(** [pn532_read_response (cmd, resp, len)]: the result, the caller's [resp]
    array afterwards, and the world.  The two early returns after
    [pn532_begin_read] do not pass through [pn532_end_read]. *)
Definition pn532_read_response (cmd : Z) (resp : list Z) (len : Z)
  (w : world) : Z * list Z * world :=
  let '(ready, w1) := pn532_wait_ready w in
  if negb ready then (-1, resp, w1)
  else
    let w2 := pn532_begin_read DATA_READ w1 in
    let '(real_len, w3) := pn532_peak_response_len w2 in
    if real_len <? 0 then (-1, resp, w3)
    else if real_len <? 2 then (-1, resp, w3)
    else
      let '(ret, data, w4) :=
        pn532_read_data (uninit real_len w3) real_len w3 in
      let w5 := pn532_end_read w4 in
      if negb (ret =? real_len)
         || negb (at_ data 0 =? PN532_PN532TOHOST)
         || negb (at_ data 1 =? cmd + 1)
      then (-1, resp, w5)
      else
        let data_len := real_len - 2 in
        if data_len >? len then (-1, resp, w5)
        else if data_len <=? 0 then (-1, resp, w5)
        else (data_len, store (take data_len (drop 2 data)) resp, w5).

(** ** Chip configuration *)

Definition pn532_firmware_ver (w : world) : Z * world :=
  let '(ret, w1) := pn532_write_command 0x02 [] 0 w in
  if ret <? 0 then (0, w1)
  else
    let '(result, ver, w2) := pn532_read_response 0x02 (uninit 4 w1) 4 w1 in
    if result <? 4 then (0, w2)
    else
      let version :=
        fold_left (fun version b => uint32 (Z.lor (uint32 (Z.shiftl version 8)) b))
                  (take 4 ver) 0 in
      (version, w2).

Definition pn532_config_rf (w : world) : bool * world :=
  let param := [0x05; 0xff; 0x01; 0x50] in
  let '(_, w1) := pn532_write_command 0x32 param 4 w in
  let '(result, _, w2) := pn532_read_response 0x32 param 4 w1 in
  (result =? 0, w2).

Definition pn532_config_sam (w : world) : bool * world :=
  let param := [0x01; 0x14; 0x01] in
  let '(_, w1) := pn532_write_command 0x14 param 3 w in
  let '(result, _, w2) := pn532_read_response 0x14 (uninit 1 w1) 1 w1 in
  (result =? 0, w2).

(** ** Tag sessions *)

(** [pn532_poll_felica (uid, pmm, syscode, from_cache)]: the result and the
    three caller arrays afterwards.  [memcpy (&felica_poll_cache,
    readbuf + 4, 18)] fills the first 18 bytes of the packed struct. *)
Definition pn532_poll_felica (uid pmm_out syscode_out : list Z)
  (from_cache : bool) (w : world)
  : bool * list Z * list Z * list Z * world :=
  if from_cache then
    (true,
     store (take 8 (idm (felica_poll_cache w))) uid,
     store (take 8 (pmm (felica_poll_cache w))) pmm_out,
     store (take 2 (syscode (felica_poll_cache w))) syscode_out,
     w)
  else
    let param := [1; 1; 0; 0xff; 0xff; 1; 0] in
    let '(ret, w1) := pn532_write_command 0x4a param 7 w in
    if ret <? 0 then (false, uid, pmm_out, syscode_out, w1)
    else
      let '(result, rb, w2) := pn532_read_response 0x4a (readbuf w1) 255 w1 in
      let w3 := set_readbuf rb w2 in
      if negb (result =? 22) || negb (at_ rb 0 =? 1) || negb (at_ rb 2 =? 20)
      then (false, uid, pmm_out, syscode_out, w3)
      else
        let src := take 18 (drop 4 rb) in
        let cache :=
          mkCache (take 8 src) (take 8 (drop 8 src)) (take 2 (drop 16 src))
                  (at_ rb 1) in
        let w4 := set_felica_poll_cache cache w3 in
        (true,
         store (take 8 (drop 4 rb)) uid,
         store (take 8 (drop 12 rb)) pmm_out,
         store (take 2 (drop 20 rb)) syscode_out,
         w4).

(** The [param] array of [pn532_mifare_auth]. *)
Definition mifare_auth_param (uid : list Z) (block_id key_id : Z)
  (key : list Z) : list Z :=
  [1; (if key_id =? 0 then 0x60 else 0x61); block_id;
   at_ key 0; at_ key 1; at_ key 2; at_ key 3; at_ key 4; at_ key 5;
   at_ uid 0; at_ uid 1; at_ uid 2; at_ uid 3].

Definition pn532_mifare_auth (uid : list Z) (block_id key_id : Z)
  (key : list Z) (w : world) : bool * world :=
  let param := mifare_auth_param uid block_id key_id key in
  let '(ret, w1) := pn532_write_command 0x40 param 13 w in
  if ret <? 0 then (false, w1)
  else
    let '(_, rb, w2) := pn532_read_response 0x40 (readbuf w1) 255 w1 in
    let w3 := set_readbuf rb w2 in
    if negb (at_ rb 0 =? 0) then (false, w3)
    else (true, w3).

(** [pn532_felica_command (cmd, param, param_len, outbuf)] with
    [outbuf = readbuf], as both callers pass it: the final [memmove] shifts
    [readbuf] down by two bytes in place.  [cmd_buf] has [cmd_len + 1]
    cells of which the last one is never written.  The [memmove] length is
    a [size_t]: with [outlen = -1] it asks for 2^32 - 1 bytes, which no
    buffer holds; that outcome is [None]. *)
Definition pn532_felica_command (cmd : Z) (param : list Z) (param_len : Z)
  (w : world) : option (Z * world) :=
  let cmd_len := param_len + 11 in
  let cmd_buf :=
    store ([inlist_tag (felica_poll_cache w); uint8 cmd_len; cmd]
             ++ take 8 (idm (felica_poll_cache w))
             ++ take param_len param)
          (uninit (cmd_len + 1) w) in
  let '(ret, w1) := pn532_write_command 0x40 cmd_buf (uint8 (cmd_len + 1)) w in
  if ret <? 0 then Some (-1, w1)
  else
    let '(result, rb, w2) := pn532_read_response 0x40 (readbuf w1) 255 w1 in
    let w3 := set_readbuf rb w2 in
    let outlen := at_ rb 1 - 1 in
    if negb (Z.land (at_ rb 0) 0x3f =? 0) || negb (result - 2 =? outlen)
    then Some (-1, w3)
    else if outlen <? 0 then None
    else
      Some (outlen, set_readbuf (store (take outlen (drop 2 rb)) rb) w3).

(** The six header bytes of the [param] arrays of [pn532_felica_read] and
    [pn532_felica_write]: one service, one block. *)
Definition felica_block_param (svc_code block_id : Z) : list Z :=
  [1; uint8 (Z.land svc_code 0xff); uint8 (Z.shiftr svc_code 8);
   1; uint8 (Z.shiftr block_id 8); uint8 (Z.land block_id 0xff)].

(** [pn532_felica_read (svc_code, block_id, block_data)]: the result and
    the caller's [block_data] afterwards. *)
Definition pn532_felica_read (svc_code block_id : Z) (block_data : list Z)
  (w : world) : option (bool * list Z * world) :=
  let param := felica_block_param svc_code block_id in
  match pn532_felica_command 0x06 param 6 w with
  | None => None
  | Some (result, w1) =>
      if negb (result =? 12 + 16)
         || negb (at_ (readbuf w1) 9 =? 0)
         || negb (at_ (readbuf w1) 10 =? 0)
      then Some (true, store (repeat 0 16) block_data, w1)
      else
        let result_data := drop 12 (readbuf w1) in
        Some (true, store (take 16 result_data) block_data, w1)
  end.

(** [pn532_felica_write (svc_code, block_id, block_data)].  The hex dump
    printed on the non-negative path goes to the console, which is not part
    of [world]. *)
Definition felica_write_param (svc_code block_id : Z)
  (block_data : list Z) : list Z :=
  let param0 := felica_block_param svc_code block_id ++ repeat 0 16 in
  take 6 param0 ++ store (take 16 block_data) (drop 6 param0).

Definition pn532_felica_write (svc_code block_id : Z) (block_data : list Z)
  (w : world) : option (bool * world) :=
  let param := felica_write_param svc_code block_id block_data in
  match pn532_felica_command 0x08 param 22 w with
  | None => None
  | Some (result, w1) =>
      if result <? 0 then Some (false, w1)
      else Some (false, w1)
  end.

(** ** The chip side, for concrete runs *)

(** Bytes as they travel on the wire. *)
Definition wire (bytes : list Z) : list Z := map reverse_bit bytes.

(** The chip's answer to a status read when a frame is available. *)
Definition chip_ready : list Z := wire [0x01].

Definition chip_ack : list Z := wire expect_ack.

(** A well-formed frame carrying [payload], as the two replies the driver
    asks for: the five header bytes, then payload, checksum and postamble. *)
Definition chip_frame (payload : list Z) : list (list Z) :=
  let frame := write_data_frame payload (Z.of_nat (length payload)) in
  [wire (take 5 frame); wire (drop 5 frame)].

(** The chip's side of one complete exchange: ready, acknowledge, ready,
    response frame. *)
Definition chip_exchange (payload : list Z) : list (list Z) :=
  [chip_ready; chip_ack; chip_ready] ++ chip_frame payload.

(** The driver right after [pn532_init]: zeroed statics, chip select high. *)
Definition boot (script : list (list Z)) (loop : bool) : world :=
  mkWorld script [] loop (repeat 0 255)
          (mkCache (repeat 0 8) (repeat 0 8) (repeat 0 2) 0) 0.

(** ** Predicates used in the statements *)

Definition is_byte (b : Z) : Prop := 0 <= b < 256.

(** A status read that reports "ready": one full byte, worth 0x01 once the
    bit order is corrected. *)
Definition reply_ready (reply : list Z) : bool :=
  match reply with
  | b :: _ => reverse_bit b =? 0x01
  | [] => false
  end.

(** Sum of bytes modulo 256. *)
Definition byte_sum (bytes : list Z) : Z := fold_left checksum_step bytes 0.

Definition all_bytes : list Z := map Z.of_nat (seq 0 256).

(** One status poll: chip select low, mode byte, one byte read, chip
    select high. *)
Definition status_poll (w : world) : world :=
  pn532_end_read (snd (pn532_do_read [0] 1 (pn532_begin_read STATUS_READ w))).

(** A chip answer to the FeliCa poll: one target, handle 1, a 20-byte
    polling response with IDm, PMm and system code. *)
Definition felica_poll_answer : list Z :=
  [0xd5; 0x4b; 1; 1; 20; 0x01;
   0x01; 0x2e; 0x3d; 0x4c; 0x5b; 0x6a; 0x79; 0x88;
   0x03; 0x32; 0x42; 0x82; 0x82; 0x47; 0xaa; 0xff;
   0x88; 0xb4].

(** A chip answer to a FeliCa read that the tag refused: status flags
    0x01 0xa6 and no block data. *)
Definition felica_read_refused : list Z :=
  [0xd5; 0x41; 0x00; 12; 0x07;
   0; 0; 0; 0; 0; 0; 0; 0;
   0x01; 0xa6].

(** A chip answer to a FeliCa read that the tag served: status flags
    0 0, one block of 16 bytes. *)
Definition felica_read_served : list Z :=
  [0xd5; 0x41; 0x00; 29; 0x07;
   0; 0; 0; 0; 0; 0; 0; 0;
   0; 0; 1;
   0x10; 0x11; 0x12; 0x13; 0x14; 0x15; 0x16; 0x17;
   0x18; 0x19; 0x1a; 0x1b; 0x1c; 0x1d; 0x1e; 0x1f].

(** A chip answer to a FeliCa write that the tag accepted. *)
Definition felica_write_accepted : list Z :=
  [0xd5; 0x41; 0x00; 12; 0x09;
   0; 0; 0; 0; 0; 0; 0; 0;
   0; 0].

(** The chip's NACK frame, in place of the acknowledge. *)
Definition chip_nack : list Z := wire [0; 0; 0xff; 0xff; 0; 0].

(** ** Proof automation *)

(** Closes [Forall is_byte] goals over explicit lists of constants and
    hypotheses. *)
Ltac byte_list :=
  repeat (apply Forall_cons || apply Forall_nil);
  try assumption;
  try (vm_compute; split; [discriminate|reflexivity]).

(** ** The remaining entry points *)

(** [pn532_set_wait_loop (loop)]; [loop] says whether the argument is a
    function rather than NULL. *)
Definition pn532_set_wait_loop (loop : bool) (w : world) : world :=
  mkWorld (miso w) (trace w) loop (readbuf w) (felica_poll_cache w)
          (stack_junk w).

(** [pn532_init (port, nss)].  [gpio_init], [gpio_set_dir] and
    [gpio_pull_up] set the pin up and leave no event; the assignments to
    [spi_port] and [gpio_nss] select the one port and pin of [world]. *)
Definition pn532_init (w : world) : bool * world :=
  let w1 := gpio_put true w in
  let w2 := gpio_put false w1 in
  let w3 := sleep_ms_rtos 2 w2 in
  let w4 := gpio_put true w3 in
  let '(ver, w5) := pn532_firmware_ver w4 in
  ((ver >? 0) && (ver <? 0x7fffffff), w5).

Definition pn532_set_rf_field (auto_rf on_off : bool) (w : world)
  : bool * world :=
  let param :=
    [1; Z.lor (if auto_rf then 2 else 0) (if on_off then 1 else 0)] in
  let '(_, w1) := pn532_write_command 0x32 param 2 w in
  let '(result, _, w2) := pn532_read_response 0x32 (uninit 1 w1) 1 w1 in
  (result >=? 0, w2).



(** [pn532_mifare_read (block_id, block_data)]: the result and the caller's
    [block_data] afterwards. *)
Definition pn532_mifare_read (block_id : Z) (block_data : list Z)
  (w : world) : bool * list Z * world :=
  let param := [1; 0x30; block_id] in
  let '(ret, w1) := pn532_write_command 0x40 param 3 w in
  if ret <? 0 then (false, block_data, w1)
  else
    let '(result, rb, w2) := pn532_read_response 0x40 (readbuf w1) 255 w1 in
    let w3 := set_readbuf rb w2 in
    if negb (at_ rb 0 =? 0) || negb (result =? 17)
    then (false, block_data, w3)
    else (true, store (take 16 (drop 1 rb)) block_data, w3).


(** ** Observations on worlds *)

(** The globals and the stack contents are the same in both worlds; the
    chip script and the trace may differ. *)
Definition same_statics (w w' : world) : Prop :=
  readbuf w' = readbuf w
  /\ felica_poll_cache w' = felica_poll_cache w
  /\ wait_loop w' = wait_loop w
  /\ stack_junk w' = stack_junk w.

(** A reply to a status read that does not report "ready". *)
Definition reply_busy (reply : list Z) : bool := negb (reply_ready reply).

(** Big-endian value of four bytes. *)
Definition be32 (b0 b1 b2 b3 : Z) : Z :=
  b0 * 16777216 + b1 * 65536 + b2 * 256 + b3.

(** * Properties *)

(** ** Arrays *)

Lemma take_length (n : Z) (a : list Z) :
  (Z.to_nat n <= length a)%nat -> length (take n a) = Z.to_nat n.
Proof. intros H. unfold take. now rewrite firstn_length_le. Qed.

Lemma store_all (src dst : list Z) :
  (length dst <= length src)%nat -> store src dst = src.
Proof.
  intros H. unfold store. rewrite skipn_all2 by exact H. apply app_nil_r.
Qed.

Lemma store_length_ge (src dst : list Z) :
  (length src <= length (store src dst))%nat.
Proof. unfold store. rewrite length_app. lia. Qed.

Lemma store_length_dst (src dst : list Z) :
  (length dst <= length (store src dst))%nat.
Proof. unfold store. rewrite length_app, length_skipn. lia. Qed.

Lemma at_store_lt (src dst : list Z) (i : Z) :
  (Z.to_nat i < length src)%nat -> at_ (store src dst) i = at_ src i.
Proof. intros H. unfold at_, store. now rewrite app_nth1. Qed.

Lemma bytes_eqb_eq (a b : list Z) : bytes_eqb a b = true <-> a = b.
Proof.
  revert b. induction a as [|x a IH]; intros [|y b]; simpl;
    try (split; (reflexivity || discriminate)).
  rewrite andb_true_iff, Z.eqb_eq, IH. split.
  - intros [-> ->]. reflexivity.
  - intros E. injection E as -> ->. split; reflexivity.
Qed.

(** ** Bit adapter *)

Lemma in_all_bytes (b : Z) : is_byte b -> In b all_bytes.
Proof.
  intros [H0 H1]. unfold all_bytes. apply in_map_iff.
  exists (Z.to_nat b). split; [lia|]. apply in_seq. lia.
Qed.

Lemma reverse_bit_involutive (b : Z) :
  is_byte b -> reverse_bit (reverse_bit b) = b.
Proof.
  intros H. apply in_all_bytes in H.
  assert (A : forallb (fun x => reverse_bit (reverse_bit x) =? x) all_bytes
              = true) by (vm_compute; reflexivity).
  rewrite forallb_forall in A. apply Z.eqb_eq, A, H.
Qed.

Lemma wire_involutive (bytes : list Z) :
  Forall is_byte bytes -> map reverse_bit (wire bytes) = bytes.
Proof.
  unfold wire. induction 1 as [|b bytes Hb _ IH]; simpl; [reflexivity|].
  now rewrite reverse_bit_involutive, IH.
Qed.

(** ** Traces *)

Lemma trace_emit (e : event) (w : world) : trace (emit e w) = e :: trace w.
Proof. reflexivity. Qed.

(** Both kinds of transfer end with chip select released. *)
Lemma pn532_write_nss (data : list Z) (len : Z) (w : world) :
  nss_level (trace (snd (pn532_write data len w))) = true.
Proof. reflexivity. Qed.

Lemma status_poll_nss (w : world) : nss_level (trace (status_poll w)) = true.
Proof. reflexivity. Qed.

(** ** Ready polling *)

Lemma status_poll_miso (w : world) : miso (status_poll w) = tl (miso w).
Proof. reflexivity. Qed.

Lemma status_poll_calls (w : world) :
  wait_loop_calls (trace (status_poll w)) = wait_loop_calls (trace w).
Proof. reflexivity. Qed.

Lemma status_poll_wait_loop (w : world) :
  wait_loop (status_poll w) = wait_loop w.
Proof. reflexivity. Qed.

(** What one turn of the loop does, by the reply to its status read. *)
Lemma wait_ready_loop_step (n : nat) (w : world) :
  wait_ready_loop (S n) w =
  if reply_ready (hd [] (miso w)) then (true, status_poll w)
  else wait_ready_loop n
         (sleep_ms_rtos 1
            (if wait_loop w then emit WaitLoop (status_poll w)
             else status_poll w)).
Proof.
  destruct w as [m tr wl rb c j].
  destruct m as [|[|b r] m']; reflexivity.
Qed.

Lemma wait_ready_loop_spec (n : nat) (w : world) :
  (wait_loop_calls (trace (snd (wait_ready_loop n w)))
   <= wait_loop_calls (trace w) + n)%nat
  /\ (fst (wait_ready_loop n w) = false
      <-> existsb reply_ready (firstn n (miso w)) = false).
Proof.
  revert w. induction n as [|n IH]; intros w.
  - simpl. split; [lia|tauto].
  - rewrite wait_ready_loop_step.
    destruct (miso w) as [|r m'] eqn:Em.
    + cbn [hd reply_ready].
      destruct (IH (sleep_ms_rtos 1
                      (if wait_loop w then emit WaitLoop (status_poll w)
                       else status_poll w))) as [IH1 IH2].
      split.
      * etransitivity; [exact IH1|].
        destruct (wait_loop w); cbn [sleep_ms_rtos trace emit wait_loop_calls];
          rewrite ?trace_emit; cbn [wait_loop_calls];
          rewrite status_poll_calls; lia.
      * rewrite IH2.
        replace (miso (sleep_ms_rtos 1
                   (if wait_loop w then emit WaitLoop (status_poll w)
                    else status_poll w))) with (@nil (list Z)).
        -- rewrite firstn_nil. tauto.
        -- destruct (wait_loop w); cbn [sleep_ms_rtos emit miso];
             rewrite status_poll_miso, Em; reflexivity.
    + cbn [hd firstn existsb].
      destruct (reply_ready r) eqn:Er.
      * cbn [fst snd orb]. rewrite status_poll_calls.
        split; [lia|]. split; discriminate.
      * cbn [orb].
        destruct (IH (sleep_ms_rtos 1
                        (if wait_loop w then emit WaitLoop (status_poll w)
                         else status_poll w))) as [IH1 IH2].
        split.
        -- etransitivity; [exact IH1|].
           destruct (wait_loop w);
             cbn [sleep_ms_rtos trace emit wait_loop_calls];
             rewrite status_poll_calls; lia.
        -- rewrite IH2.
           replace (miso (sleep_ms_rtos 1
                      (if wait_loop w then emit WaitLoop (status_poll w)
                       else status_poll w))) with m'; [tauto|].
           destruct (wait_loop w); cbn [sleep_ms_rtos emit miso];
             rewrite status_poll_miso, Em; reflexivity.
Qed.

(** ** Transfers against a scripted chip *)

Lemma uninit_length (n : Z) (w : world) : length (uninit n w) = Z.to_nat n.
Proof. unfold uninit. apply repeat_length. Qed.

Lemma wire_length (bytes : list Z) : length (wire bytes) = length bytes.
Proof. unfold wire. apply length_map. Qed.

Lemma take_all (n : Z) (a : list Z) :
  (length a <= Z.to_nat n)%nat -> take n a = a.
Proof. intros H. unfold take. now apply firstn_all2. Qed.

(** A transfer never reports more bytes than were asked for. *)
Lemma do_read_result_le (buf : list Z) (len : Z) (w : world) :
  fst (fst (pn532_do_read buf len w)) <= Z.max 0 len.
Proof.
  unfold pn532_do_read, spi_read_blocking, take. cbn [fst].
  rewrite length_firstn. lia.
Qed.

(** A reply of exactly the requested size fills the buffer with the
    chip's bytes in protocol bit order. *)
Lemma do_read_full (buf bytes : list Z) (rest : list (list Z)) (len : Z)
  (w : world) :
  miso w = wire bytes :: rest ->
  Forall is_byte bytes ->
  Z.of_nat (length bytes) = len ->
  (length buf <= length bytes)%nat ->
  pn532_do_read buf len w = (len, bytes, emit (SpiRead len) (set_miso rest w)).
Proof.
  intros Hm Hb Hl Hbuf. unfold pn532_do_read, spi_read_blocking.
  rewrite Hm. cbn [hd tl].
  assert (Ht : take len (wire bytes) = wire bytes)
    by (apply take_all; rewrite wire_length; lia).
  rewrite Ht, wire_length, Hl.
  rewrite (store_all (wire bytes) buf) by (rewrite wire_length; exact Hbuf).
  rewrite Ht, wire_involutive by exact Hb.
  rewrite store_all by (rewrite wire_length; lia).
  reflexivity.
Qed.

Lemma at_take_app (n i : Z) (a b : list Z) :
  (Z.to_nat i < length a)%nat -> (Z.to_nat i < Z.to_nat n)%nat ->
  at_ (take n (a ++ b)) i = at_ a i.
Proof.
  intros Ha Hn. unfold at_, take. rewrite nth_firstn.
  destruct (Nat.ltb_spec (Z.to_nat i) (Z.to_nat n)) as [_|H]; [|lia].
  now apply app_nth1.
Qed.

(** ** Frame codec *)

(** Header peek on a five-byte reply. *)
Lemma peak_response_len_header (p s1 s2 l lcs : Z) (rest : list (list Z))
  (w : world) :
  miso w = wire [p; s1; s2; l; lcs] :: rest ->
  Forall is_byte [p; s1; s2; l; lcs] ->
  pn532_peak_response_len w =
  ((if negb (p =? PN532_PREAMBLE) || negb (s1 =? PN532_STARTCODE1)
       || negb (s2 =? PN532_STARTCODE2) then -1
    else if negb (uint8 (l + lcs) =? 0) then -1 else l),
   emit (SpiRead 5) (set_miso rest w)).
Proof.
  intros Hm Hb. unfold pn532_peak_response_len.
  rewrite (do_read_full (uninit 5 w) [p; s1; s2; l; lcs] rest 5 w Hm Hb)
    by (reflexivity || (rewrite uninit_length; simpl; lia)).
  change (at_ [p; s1; s2; l; lcs] 0) with p.
  change (at_ [p; s1; s2; l; lcs] 1) with s1.
  change (at_ [p; s1; s2; l; lcs] 2) with s2.
  change (at_ [p; s1; s2; l; lcs] 3) with l.
  change (at_ [p; s1; s2; l; lcs] 4) with lcs.
  destruct (negb (p =? PN532_PREAMBLE) || negb (s1 =? PN532_STARTCODE1)
            || negb (s2 =? PN532_STARTCODE2)); [reflexivity|].
  destruct (negb (uint8 (l + lcs) =? 0)); reflexivity.
Qed.

(** Payload read on a reply of [len + 2] bytes, for the lengths whose
    [len + 2] fits the [uint8_t] parameter of [read_frame]. *)
Lemma read_data_section (data sec : list Z) (len : Z) (rest : list (list Z))
  (w : world) :
  miso w = wire sec :: rest ->
  Forall is_byte sec ->
  Z.of_nat (length sec) = len + 2 ->
  len <= 253 ->
  pn532_read_data data len w =
  ((if negb (byte_sum (take (len + 1) sec) =? 0) then -1
    else if negb (at_ sec (len + 1) =? PN532_POSTAMBLE) then -1 else len),
   store (take (len + 1) sec) data,
   emit (SpiRead (len + 2)) (set_miso rest w)).
Proof.
  intros Hm Hb Hl Hle. unfold pn532_read_data, read_frame.
  assert (Hu : uint8 (len + 2) = len + 2)
    by (unfold uint8; apply Z.mod_small; lia).
  rewrite Hu.
  rewrite (do_read_full (uninit (len + 2) w) sec rest (len + 2) w Hm Hb Hl)
    by (rewrite uninit_length; lia).
  rewrite Z.eqb_refl. cbn [negb]. fold (byte_sum (take (len + 1) sec)).
  destruct (negb (byte_sum (take (len + 1) sec) =? 0)); [reflexivity|].
  destruct (negb (at_ sec (len + 1) =? PN532_POSTAMBLE)); reflexivity.
Qed.

(** For [len] of 254 or 255 the wrapped request is for 0 or 1 bytes, and
    the result can never equal [len + 2]. *)
Lemma read_data_wrap (data : list Z) (len : Z) (w : world) :
  254 <= len <= 255 -> fst (fst (pn532_read_data data len w)) = -1.
Proof.
  intros H. unfold pn532_read_data, read_frame.
  pose proof (do_read_result_le (uninit (len + 2) w) (uint8 (len + 2)) w) as R.
  destruct (pn532_do_read (uninit (len + 2) w) (uint8 (len + 2)) w)
    as [[result resp] w1].
  cbn [fst] in R.
  assert (Hu : uint8 (len + 2) <= 1).
  { unfold uint8. assert (E : len = 254 \/ len = 255) by lia.
    destruct E as [-> | ->]; vm_compute; discriminate. }
  destruct (result =? len + 2) eqn:E; [apply Z.eqb_eq in E; lia|].
  reflexivity.
Qed.

Lemma read_data_result (data : list Z) (len : Z) (w : world) :
  fst (fst (pn532_read_data data len w)) = -1
  \/ fst (fst (pn532_read_data data len w)) = len.
Proof.
  unfold pn532_read_data.
  destruct (read_frame _ _ _) as [[result resp] w1].
  destruct (negb (result =? len + 2)); [now left|].
  destruct (negb (_ =? 0)); [now left|].
  destruct (negb (_ =? PN532_POSTAMBLE)); [now left|now right].
Qed.

Lemma read_data_length (data : list Z) (len : Z) (w : world) :
  (length data <= length (snd (fst (pn532_read_data data len w))))%nat.
Proof.
  unfold pn532_read_data.
  destruct (read_frame _ _ _) as [[result resp] w1].
  destruct (negb (result =? len + 2)); [cbn; lia|].
  destruct (negb (_ =? 0)); [apply store_length_dst|].
  destruct (negb (_ =? PN532_POSTAMBLE)); apply store_length_dst.
Qed.

(** *** Checksums *)

Lemma checksum_fold_mod (l : list Z) (a : Z) :
  fold_left checksum_step l a mod 256
  = (a + fold_right Z.add 0 l) mod 256.
Proof.
  revert a. induction l as [|d l IH]; intros a; cbn [fold_left fold_right].
  - now rewrite Z.add_0_r.
  - rewrite IH. unfold checksum_step, uint8.
    rewrite Zplus_mod_idemp_l. f_equal. lia.
Qed.

Lemma checksum_fold_byte (l : list Z) (a : Z) :
  is_byte a -> is_byte (fold_left checksum_step l a).
Proof.
  revert a. induction l as [|d l IH]; intros a Ha; cbn [fold_left].
  - exact Ha.
  - apply IH. unfold checksum_step, uint8, is_byte.
    apply Z.mod_pos_bound. lia.
Qed.

(** The checksum byte that [pn532_write_data] appends brings the byte sum
    of payload and checksum to zero. *)
Lemma write_data_checksum_cancels (payload : list Z) :
  byte_sum (payload ++ [uint8 (Z.lnot (fold_left checksum_step payload 0xff))])
  = 0.
Proof.
  unfold byte_sum. rewrite fold_left_app. cbn [fold_left].
  pose proof (checksum_fold_mod payload 0xff) as Hc.
  pose proof (checksum_fold_mod payload 0) as Hs.
  pose proof (checksum_fold_byte payload 0xff) as Bc.
  pose proof (checksum_fold_byte payload 0) as Bs.
  unfold is_byte in Bc, Bs.
  specialize (Bc ltac:(lia)). specialize (Bs ltac:(lia)).
  set (c := fold_left checksum_step payload 0xff) in *.
  set (s := fold_left checksum_step payload 0) in *.
  set (S := fold_right Z.add 0 payload) in *.
  rewrite Z.mod_small in Hc, Hs by lia.
  unfold checksum_step, uint8, Z.lnot.
  rewrite Zplus_mod_idemp_r.
  cbn [Z.add] in Hs.
  replace (s + (Z.pred (- c))) with ((S mod 256) - (255 + S) mod 256 - 1)
    by (rewrite <- Hc, <- Hs; lia).
  clear. 
  pose proof (Z.mod_pos_bound S 256 ltac:(lia)).
  pose proof (Z.mod_pos_bound (255 + S) 256 ltac:(lia)).
  Z.div_mod_to_equations. lia.
Qed.

Lemma write_data_frame_section (payload : list Z) :
  drop 5 (write_data_frame payload (Z.of_nat (length payload)))
  = payload
      ++ [uint8 (Z.lnot (fold_left checksum_step payload 0xff));
          PN532_POSTAMBLE].
Proof.
  unfold write_data_frame.
  rewrite take_all by lia. reflexivity.
Qed.

Lemma take_succ_section (payload : list Z) (c p : Z) :
  take (Z.of_nat (length payload) + 1) (payload ++ [c; p]) = payload ++ [c].
Proof.
  unfold take.
  replace (Z.to_nat (Z.of_nat (length payload) + 1))
    with (length payload + 1)%nat by lia.
  now rewrite firstn_app_2.
Qed.

Lemma at_succ_section (payload : list Z) (c p : Z) :
  at_ (payload ++ [c; p]) (Z.of_nat (length payload) + 1) = p.
Proof.
  unfold at_.
  replace (Z.to_nat (Z.of_nat (length payload) + 1))
    with (length payload + 1)%nat by lia.
  now rewrite app_nth2_plus.
Qed.

(** Encode, then decode: for payloads of up to 253 bytes the decoder
    returns the length and the payload. *)
Lemma write_read_roundtrip (payload data : list Z) (rest : list (list Z))
  (w : world) :
  Forall is_byte payload ->
  Z.of_nat (length payload) <= 253 ->
  miso w
  = wire (drop 5 (write_data_frame payload (Z.of_nat (length payload))))
      :: rest ->
  fst (fst (pn532_read_data data (Z.of_nat (length payload)) w))
  = Z.of_nat (length payload)
  /\ take (Z.of_nat (length payload))
          (snd (fst (pn532_read_data data (Z.of_nat (length payload)) w)))
     = payload.
Proof.
  intros Hb Hn Hm. rewrite write_data_frame_section in Hm.
  set (dcs := uint8 (Z.lnot (fold_left checksum_step payload 0xff))) in *.
  rewrite (read_data_section data (payload ++ [dcs; PN532_POSTAMBLE])
             (Z.of_nat (length payload)) rest w Hm).
  - rewrite take_succ_section, at_succ_section.
    unfold dcs. rewrite write_data_checksum_cancels.
    cbn [fst snd Z.eqb negb]. split; [reflexivity|].
    unfold store, take. rewrite <- !app_assoc, Nat2Z.id.
    rewrite firstn_app, firstn_all, Nat.sub_diag, firstn_0.
    apply app_nil_r.
  - apply Forall_app. split; [exact Hb|].
    repeat constructor; unfold dcs, uint8, PN532_POSTAMBLE;
      try apply Z.mod_pos_bound; lia.
  - rewrite length_app. cbn [length]. lia.
  - exact Hn.
Qed.

(** ** Response correlation *)

(** C4: once the chip has reported ready and delivers a frame whose
    preamble, start codes, length checksum, payload checksum and postamble
    are all valid, [pn532_read_response] returns -1 whenever the payload's
    direction byte is not 0xD5 or its command byte is not [cmd + 1]. *)
Theorem read_response_rejects_mismatch
  (cmd : Z) (resp : list Z) (len : Z) (w w1 : world)
  (payload : list Z) (lcs dcs : Z) (rest : list (list Z)) :
  pn532_wait_ready w = (true, w1) ->
  miso w1
  = wire [PN532_PREAMBLE; PN532_STARTCODE1; PN532_STARTCODE2;
          Z.of_nat (length payload); lcs]
      :: wire (payload ++ [dcs; PN532_POSTAMBLE]) :: rest ->
  Forall is_byte payload -> is_byte (Z.of_nat (length payload)) ->
  is_byte lcs -> is_byte dcs ->
  uint8 (Z.of_nat (length payload) + lcs) = 0 ->
  uint8 (byte_sum payload + dcs) = 0 ->
  at_ payload 0 <> PN532_PN532TOHOST \/ at_ payload 1 <> cmd + 1 ->
  fst (fst (pn532_read_response cmd resp len w)) = -1.
Proof.
  intros Hr Hm Hb HL Hlcs Hdcs Hlc Hdc Hbad.
  set (L := Z.of_nat (length payload)) in *.
  unfold pn532_read_response. rewrite Hr. cbn [negb].
  rewrite (peak_response_len_header PN532_PREAMBLE PN532_STARTCODE1
             PN532_STARTCODE2 L lcs
             (wire (payload ++ [dcs; PN532_POSTAMBLE]) :: rest)
             (pn532_begin_read DATA_READ w1) Hm)
    by byte_list.
  rewrite !Z.eqb_refl, Hlc. cbn [negb orb Z.eqb].
  destruct (L <? 0); [reflexivity|].
  destruct (L <? 2) eqn:E2; [reflexivity|].
  apply Z.ltb_ge in E2.
  set (w3 := emit (SpiRead 5) _).
  destruct (Z_le_gt_dec L 253) as [Hle|Hgt].
  - rewrite (read_data_section (uninit L w3)
               (payload ++ [dcs; PN532_POSTAMBLE]) L rest w3).
    + assert (A0 : at_ (store (take (L + 1) (payload ++ [dcs; PN532_POSTAMBLE]))
                          (uninit L w3)) 0 = at_ payload 0).
      { rewrite at_store_lt.
        - apply at_take_app; lia.
        - unfold L. rewrite take_succ_section, length_app. cbn. lia. }
      assert (A1 : at_ (store (take (L + 1) (payload ++ [dcs; PN532_POSTAMBLE]))
                          (uninit L w3)) 1 = at_ payload 1).
      { rewrite at_store_lt.
        - apply at_take_app; lia.
        - unfold L. rewrite take_succ_section, length_app. cbn. lia. }
      rewrite A0, A1.
      destruct Hbad as [H|H]; apply Z.eqb_neq in H; rewrite H;
        cbn [negb orb]; rewrite ?orb_true_r; reflexivity.
    + reflexivity.
    + apply Forall_app. split; [exact Hb|]. byte_list.
    + rewrite length_app. cbn [length]. lia.
    + exact Hle.
  - pose proof (read_data_wrap (uninit L w3) L w3) as Hw.
    destruct (pn532_read_data (uninit L w3) L w3) as [[ret data] w4].
    cbn [fst] in Hw. rewrite Hw by (unfold is_byte in HL; lia).
    destruct (-1 =? L) eqn:E; [apply Z.eqb_eq in E; lia|].
    reflexivity.
Qed.

(** ** What the exchange leaves behind *)

(** [pn532_read_response] either fails with -1 and leaves the caller's
    array alone, or returns a body length between 1 and [len] that the
    array then holds. *)
Lemma read_response_result (cmd : Z) (resp : list Z) (len : Z) (w : world) :
  (fst (fst (pn532_read_response cmd resp len w)) = -1
   /\ snd (fst (pn532_read_response cmd resp len w)) = resp)
  \/ (1 <= fst (fst (pn532_read_response cmd resp len w)) <= len
      /\ (Z.to_nat (fst (fst (pn532_read_response cmd resp len w)))
          <= length (snd (fst (pn532_read_response cmd resp len w))))%nat).
Proof.
  unfold pn532_read_response.
  destruct (pn532_wait_ready w) as [ready w1].
  destruct ready; cbn [negb]; [|now left].
  destruct (pn532_peak_response_len _) as [real_len w3].
  destruct (real_len <? 0); [now left|].
  destruct (real_len <? 2); [now left|].
  pose proof (read_data_length (uninit real_len w3) real_len w3) as Hl.
  destruct (pn532_read_data _ _ _) as [[ret data] w4]. cbn [fst snd] in Hl.
  destruct (orb (orb (negb (ret =? real_len)) _) _); [now left|].
  destruct (real_len - 2 >? len) eqn:E1; [now left|].
  destruct (real_len - 2 <=? 0) eqn:E2; [now left|].
  right. cbn [fst snd]. split; [lia|].
  etransitivity; [|apply store_length_ge].
  rewrite uninit_length in Hl.
  unfold take, drop. rewrite length_firstn, length_skipn. lia.
Qed.

(** The write path touches the pins only: the scratch buffer survives. *)
Lemma wait_ready_loop_readbuf (n : nat) (w : world) :
  readbuf (snd (wait_ready_loop n w)) = readbuf w.
Proof.
  revert w. induction n as [|n IH]; intros w; [reflexivity|].
  rewrite wait_ready_loop_step.
  destruct (reply_ready _); [reflexivity|].
  rewrite IH. destruct (wait_loop w); reflexivity.
Qed.

Lemma read_ack_readbuf (w : world) : readbuf (snd (read_ack w)) = readbuf w.
Proof.
  unfold read_ack.
  pose proof (wait_ready_loop_readbuf 30 w) as H.
  fold (pn532_wait_ready w) in H.
  destruct (pn532_wait_ready w) as [ready w1]. cbn [snd] in H.
  destruct ready; cbn [negb]; [|exact H].
  unfold read_frame, pn532_do_read, spi_read_blocking.
  destruct (negb _); exact H.
Qed.

Lemma write_command_readbuf (cmd : Z) (param : list Z) (len : Z) (w : world) :
  readbuf (snd (pn532_write_command cmd param len w)) = readbuf w.
Proof.
  unfold pn532_write_command, pn532_write_data, write_frame, pn532_write,
    spi_write_blocking.
  set (w1 := sleep_ms_rtos 2 _).
  pose proof (read_ack_readbuf w1) as H.
  destruct (read_ack w1) as [ack w2]. exact H.
Qed.

(** [pn532_write_command] hands back the acknowledge flag: 0 or 1, never
    a negative value. *)
Lemma write_command_ret (cmd : Z) (param : list Z) (len : Z) (w : world) :
  fst (pn532_write_command cmd param len w)
  = if fst (read_ack (snd (write_frame
                             (write_data_frame
                                ([PN532_HOSTTOPN532; cmd] ++ take len param)
                                (uint8 (len + 2)))
                             (uint8 (7 + uint8 (len + 2))) w)))
    then 1 else 0.
Proof.
  unfold pn532_write_command, pn532_write_data.
  destruct (write_frame _ _ w) as [r w1]. cbn [snd].
  destruct (read_ack w1) as [ack w2]. reflexivity.
Qed.

Lemma write_command_ret_nonneg (cmd : Z) (param : list Z) (len : Z)
  (w : world) :
  (fst (pn532_write_command cmd param len w) <? 0) = false.
Proof.
  rewrite write_command_ret. destruct (fst (read_ack _)); reflexivity.
Qed.

(** ** Slices of the scratch buffer *)

Lemma slice_of_prefix (n m k : nat) (l : list Z) :
  (n + m <= k)%nat ->
  firstn m (skipn n (firstn k l)) = firstn m (skipn n l).
Proof.
  intros H. rewrite !firstn_skipn_comm, firstn_firstn.
  now rewrite Nat.min_l by lia.
Qed.

Lemma slice_length (n m : nat) (l : list Z) :
  (n + m <= length l)%nat -> length (firstn m (skipn n l)) = m.
Proof. intros H. rewrite length_firstn, length_skipn. lia. Qed.

(** ** Session layer *)

Lemma poll_felica_fresh_inv (uid pmm_out sc uid' pmm' sc' : list Z)
  (w w' : world) :
  pn532_poll_felica uid pmm_out sc false w = (true, uid', pmm', sc', w') ->
  exists rb,
    (22 <= length rb)%nat
    /\ uid' = store (take 8 (drop 4 rb)) uid
    /\ pmm' = store (take 8 (drop 12 rb)) pmm_out
    /\ sc' = store (take 2 (drop 20 rb)) sc
    /\ idm (felica_poll_cache w') = take 8 (take 18 (drop 4 rb))
    /\ pmm (felica_poll_cache w') = take 8 (drop 8 (take 18 (drop 4 rb)))
    /\ syscode (felica_poll_cache w') = take 2 (drop 16 (take 18 (drop 4 rb))).
Proof.
  unfold pn532_poll_felica.
  destruct (pn532_write_command 74 _ 7 w) as [ret w1].
  destruct (ret <? 0); [discriminate|].
  pose proof (read_response_result 74 (readbuf w1) 255 w1) as R.
  destruct (pn532_read_response 74 (readbuf w1) 255 w1) as [[result rb] w2].
  cbn [fst snd] in R.
  destruct (result =? 22) eqn:E; cbn [negb orb]; [|discriminate].
  apply Z.eqb_eq in E. subst result.
  destruct (orb _ _); [discriminate|].
  intros H. injection H as <- <- <- <-.
  exists rb. destruct R as [[R _]|[_ R]]; [discriminate|].
  repeat split; try reflexivity. lia.
Qed.

Lemma felica_command_readbuf_length (cmd : Z) (param : list Z)
  (param_len result : Z) (w w1 : world) :
  pn532_felica_command cmd param param_len w = Some (result, w1) ->
  0 <= result ->
  (Z.to_nat (result + 2) <= length (readbuf w1))%nat.
Proof.
  unfold pn532_felica_command.
  destruct (pn532_write_command 64 _ _ w) as [ret w0].
  destruct (ret <? 0); [intros H; injection H as <- <-; lia|].
  pose proof (read_response_result 64 (readbuf w0) 255 w0) as R.
  destruct (pn532_read_response 64 (readbuf w0) 255 w0) as [[res rb] w2].
  cbn [fst snd] in R.
  destruct (negb (Z.land (at_ rb 0) 63 =? 0)); cbn [orb];
    [intros H; injection H as <- <-; lia|].
  destruct (res - 2 =? at_ rb 1 - 1) eqn:E; cbn [negb];
    [|intros H; injection H as <- <-; lia].
  apply Z.eqb_eq in E.
  destruct (at_ rb 1 - 1 <? 0); [discriminate|].
  intros H Hr. injection H as <- <-.
  cbn [readbuf set_readbuf].
  etransitivity; [|apply store_length_dst].
  destruct R as [[R _]|[_ R]]; lia.
Qed.

(** * Main results *)

(** ** C2: ready polling *)

(** C2 (as amended): starting from any world, [pn532_wait_ready] calls the
    idle callback at most 30 times, once after each failed attempt, and it
    returns false exactly when none of the replies to its 30 status reads
    is a full one-byte read worth 0x01. *)
Theorem wait_ready_callback_bound (w : world) :
  (wait_loop_calls (trace (snd (pn532_wait_ready w)))
   <= wait_loop_calls (trace w) + 30)%nat
  /\ (fst (pn532_wait_ready w) = false
      <-> existsb reply_ready (firstn 30 (miso w)) = false).
Proof. exact (wait_ready_loop_spec 30 w). Qed.

(** C2 (as stated) fails: with a callback registered and a chip that never
    reports ready, the callback runs after every one of the 30 attempts,
    the last one included, which is more than 29. *)
Lemma wait_ready_thirty_callbacks :
  ~ (wait_loop_calls (trace (snd (pn532_wait_ready (boot [] true))))
     <= 29)%nat.
Proof.
  assert (E : wait_loop_calls (trace (snd (pn532_wait_ready (boot [] true))))
              = 30%nat) by (vm_compute; reflexivity).
  rewrite E. lia.
Qed.

(** ** C4: response correlation, on a frame that echoes command 0x05 *)

Lemma read_response_rejects_mismatch_witness :
  fst (fst (pn532_read_response 0x02 [] 4
              (boot (chip_ready :: chip_frame [0xd5; 0x05; 0x32; 1; 6; 7])
                    false)))
  = -1.
Proof.
  eapply (read_response_rejects_mismatch 0x02 [] 4 _ _
            [0xd5; 0x05; 0x32; 1; 6; 7] 0xfa 0xe6 []).
  - vm_compute. reflexivity.
  - vm_compute. reflexivity.
  - byte_list.
  - vm_compute. split; [discriminate|reflexivity].
  - vm_compute. split; [discriminate|reflexivity].
  - vm_compute. split; [discriminate|reflexivity].
  - vm_compute. reflexivity.
  - vm_compute. reflexivity.
  - right. vm_compute. discriminate.
Defined.

(** ** C6: the FeliCa poll cache *)

(** C6: when a fresh [pn532_poll_felica] succeeds, a cached poll made right
    after it succeeds with the same IDm, PMm and system code, and leaves
    the world as it found it: nothing is added to the trace and nothing is
    taken from the chip, so no transfer takes place. *)
Theorem poll_felica_cache_replay
  (uid pmm_out sc uid2 pmm2 sc2 uid' pmm' sc' : list Z) (w w' : world) :
  length uid = 8%nat -> length pmm_out = 8%nat -> length sc = 2%nat ->
  length uid2 = 8%nat -> length pmm2 = 8%nat -> length sc2 = 2%nat ->
  pn532_poll_felica uid pmm_out sc false w = (true, uid', pmm', sc', w') ->
  pn532_poll_felica uid2 pmm2 sc2 true w' = (true, uid', pmm', sc', w').
Proof.
  intros Lu Lp Ls Lu2 Lp2 Ls2 H.
  apply poll_felica_fresh_inv in H.
  destruct H as (rb & Hrb & -> & -> & -> & Hi & Hp & Hs).
  unfold pn532_poll_felica. rewrite Hi, Hp, Hs.
  unfold take, drop.
  change (Z.to_nat 8) with 8%nat. change (Z.to_nat 18) with 18%nat.
  change (Z.to_nat 4) with 4%nat. change (Z.to_nat 2) with 2%nat.
  change (Z.to_nat 12) with 12%nat. change (Z.to_nat 16) with 16%nat.
  change (Z.to_nat 20) with 20%nat.
  rewrite !firstn_firstn. cbn [Nat.min].
  rewrite (slice_of_prefix 8 8 18), (slice_of_prefix 16 2 18) by lia.
  rewrite !skipn_skipn. cbn [Nat.add].
  assert (A : length (firstn 8 (skipn 4 rb)) = 8%nat)
    by (apply slice_length; lia).
  assert (B : length (firstn 8 (skipn 12 rb)) = 8%nat)
    by (apply slice_length; lia).
  assert (C : length (firstn 2 (skipn 20 rb)) = 2%nat)
    by (apply slice_length; lia).
  rewrite !store_all by lia. reflexivity.
Qed.

Lemma poll_felica_cache_replay_witness :
  exists uid' pmm' sc' w',
    pn532_poll_felica (repeat 0 8) (repeat 0 8) (repeat 0 2) false
      (boot (chip_exchange felica_poll_answer) false)
    = (true, uid', pmm', sc', w')
    /\ pn532_poll_felica (repeat 9 8) (repeat 9 8) (repeat 9 2) true w'
       = (true, uid', pmm', sc', w')
    /\ uid' = [0x01; 0x2e; 0x3d; 0x4c; 0x5b; 0x6a; 0x79; 0x88].
Proof.
  do 4 eexists.
  assert (H : pn532_poll_felica (repeat 0 8) (repeat 0 8) (repeat 0 2) false
                (boot (chip_exchange felica_poll_answer) false)
              = (true, _, _, _, _)) by (vm_compute; reflexivity).
  split; [exact H|]. split; [|reflexivity].
  apply (poll_felica_cache_replay (repeat 0 8) (repeat 0 8) (repeat 0 2)
           (repeat 9 8) (repeat 9 8) (repeat 9 2) _ _ _ _ _
           eq_refl eq_refl eq_refl eq_refl eq_refl eq_refl H).
Defined.

(** ** C7: FeliCa block read *)

(** C7: whenever the inner FeliCa command returns, [pn532_felica_read]
    returns true.  If the command's result is not 28, or the byte at offset
    9 or at offset 10 of the scratch buffer is not zero, the 16 output
    bytes are all zero; otherwise they are the 16 bytes of the scratch
    buffer from offset 12 on. *)
Theorem felica_read_degraded_success
  (svc_code block_id : Z) (block_data : list Z) (w w1 : world) (result : Z) :
  length block_data = 16%nat ->
  pn532_felica_command 0x06 (felica_block_param svc_code block_id) 6 w
  = Some (result, w1) ->
  pn532_felica_read svc_code block_id block_data w
  = Some (true,
          (if negb (result =? 28)
              || negb (at_ (readbuf w1) 9 =? 0)
              || negb (at_ (readbuf w1) 10 =? 0)
           then repeat 0 16
           else take 16 (drop 12 (readbuf w1))),
          w1)
  /\ length (if negb (result =? 28)
                || negb (at_ (readbuf w1) 9 =? 0)
                || negb (at_ (readbuf w1) 10 =? 0)
             then repeat 0 16
             else take 16 (drop 12 (readbuf w1))) = 16%nat.
Proof.
  intros Lb H. unfold pn532_felica_read. rewrite H.
  change (12 + 16) with 28.
  destruct (result =? 28) eqn:E; cbn [negb orb].
  - apply Z.eqb_eq in E. subst result.
    pose proof (felica_command_readbuf_length _ _ _ _ _ _ H ltac:(lia)) as L.
    assert (A : length (take 16 (drop 12 (readbuf w1))) = 16%nat).
    { unfold take, drop. apply slice_length.
      change (Z.to_nat 12) with 12%nat. change (Z.to_nat 16) with 16%nat.
      change (Z.to_nat (28 + 2)) with 30%nat in L. lia. }
    destruct (orb _ _).
    + rewrite store_all by (rewrite repeat_length; lia).
      split; reflexivity.
    + rewrite store_all by lia. split; [reflexivity|exact A].
  - rewrite store_all by (rewrite repeat_length; lia).
    split; reflexivity.
Qed.

Lemma felica_read_degraded_success_witness :
  exists w1,
    pn532_felica_read 0x000b 0x8005 (repeat 0xee 16)
      (boot (chip_exchange felica_read_refused) false)
    = Some (true, repeat 0 16, w1).
Proof.
  eexists.
  assert (H : pn532_felica_command 0x06 (felica_block_param 0x000b 0x8005) 6
                (boot (chip_exchange felica_read_refused) false)
              = Some (11, _)) by (vm_compute; reflexivity).
  exact (proj1 (felica_read_degraded_success 0x000b 0x8005 (repeat 0xee 16)
                  _ _ 11 eq_refl H)).
Defined.

(** ** C8: FeliCa block write *)

(** C8: whatever the inner FeliCa command returns, negative or not,
    [pn532_felica_write] returns false. *)
Theorem felica_write_reports_failure
  (svc_code block_id : Z) (block_data : list Z) (w w1 : world) (result : Z) :
  pn532_felica_command 0x08
    (felica_write_param svc_code block_id block_data) 22 w
  = Some (result, w1) ->
  pn532_felica_write svc_code block_id block_data w = Some (false, w1).
Proof.
  intros H. unfold pn532_felica_write. rewrite H.
  destruct (result <? 0); reflexivity.
Qed.

Lemma felica_write_reports_failure_witness :
  exists w1,
    pn532_felica_command 0x08
      (felica_write_param 0x0009 0x8005 (repeat 0x5a 16)) 22
      (boot (chip_exchange felica_write_accepted) false)
    = Some (11, w1)
    /\ pn532_felica_write 0x0009 0x8005 (repeat 0x5a 16)
         (boot (chip_exchange felica_write_accepted) false)
       = Some (false, w1).
Proof.
  eexists.
  assert (H : pn532_felica_command 0x08
                (felica_write_param 0x0009 0x8005 (repeat 0x5a 16)) 22
                (boot (chip_exchange felica_write_accepted) false)
              = Some (11, _)) by (vm_compute; reflexivity).
  split; [exact H|].
  exact (felica_write_reports_failure 0x0009 0x8005 (repeat 0x5a 16) _ _ 11 H).
Defined.

(** ** C10: MIFARE authentication *)

(** C10: if the response read after the authentication command fails with
    -1 while the first byte of the scratch buffer is 0, then
    [pn532_mifare_auth] returns true. *)
Theorem mifare_auth_ignores_failed_read
  (uid : list Z) (block_id key_id : Z) (key : list Z) (w : world) :
  fst (fst (pn532_read_response 0x40
              (readbuf (snd (pn532_write_command 0x40
                               (mifare_auth_param uid block_id key_id key)
                               13 w)))
              255
              (snd (pn532_write_command 0x40
                      (mifare_auth_param uid block_id key_id key) 13 w))))
  = -1 ->
  at_ (readbuf w) 0 = 0 ->
  fst (pn532_mifare_auth uid block_id key_id key w) = true.
Proof.
  intros Hr H0. unfold pn532_mifare_auth.
  pose proof (write_command_ret_nonneg 0x40
                (mifare_auth_param uid block_id key_id key) 13 w) as Hn.
  pose proof (write_command_readbuf 0x40
                (mifare_auth_param uid block_id key_id key) 13 w) as Hb.
  destruct (pn532_write_command 0x40 _ 13 w) as [ret w1].
  cbn [fst snd] in *. rewrite Hn.
  pose proof (read_response_result 0x40 (readbuf w1) 255 w1) as R.
  destruct (pn532_read_response 0x40 (readbuf w1) 255 w1) as [[res rb] w2].
  cbn [fst snd] in *.
  destruct R as [[_ ->]|[R _]]; [|lia].
  rewrite Hb, H0. reflexivity.
Qed.

Lemma mifare_auth_ignores_failed_read_witness :
  fst (pn532_mifare_auth [0xde; 0xad; 0xbe; 0xef] 4 0
         [0xff; 0xff; 0xff; 0xff; 0xff; 0xff] (boot [] false))
  = true.
Proof.
  apply (mifare_auth_ignores_failed_read [0xde; 0xad; 0xbe; 0xef] 4 0
           [0xff; 0xff; 0xff; 0xff; 0xff; 0xff] (boot [] false)).
  - vm_compute. reflexivity.
  - vm_compute. reflexivity.
Defined.

(** ** C1: configuration commands *)

(** [pn532_read_response] never returns 0, so the comparison [== 0] in
    [pn532_config_rf] and [pn532_config_sam] is never satisfied. *)
Lemma config_never_succeeds (w : world) :
  fst (pn532_config_rf w) = false /\ fst (pn532_config_sam w) = false.
Proof.
  unfold pn532_config_rf, pn532_config_sam. split.
  - destruct (pn532_write_command 50 _ 4 w) as [ret w1].
    pose proof (read_response_result 50 [5; 255; 1; 80] 4 w1) as R.
    destruct (pn532_read_response 50 _ 4 w1) as [[res rb] w2].
    cbn [fst snd] in *. apply Z.eqb_neq. lia.
  - destruct (pn532_write_command 20 _ 3 w) as [ret w1].
    pose proof (read_response_result 20 (uninit 1 w1) 1 w1) as R.
    destruct (pn532_read_response 20 _ 1 w1) as [[res rb] w2].
    cbn [fst snd] in *. apply Z.eqb_neq. lia.
Qed.

(** C1 at the failing input: the chip acknowledges the command and answers
    with a well-formed frame whose body is empty (payload D5 33, resp.
    D5 15: header and payload pass the codec), and both configuration
    functions return false. *)
Theorem config_rejects_empty_body :
  fst (pn532_peak_response_len
         (boot (chip_frame [0xd5; 0x33]) false)) = 2
  /\ fst (fst (pn532_read_data [] 2
                 (boot (tl (chip_frame [0xd5; 0x33])) false))) = 2
  /\ fst (pn532_config_rf (boot (chip_exchange [0xd5; 0x33]) false)) = false
  /\ fst (pn532_config_sam (boot (chip_exchange [0xd5; 0x15]) false)) = false.
Proof. vm_compute. repeat split; reflexivity. Qed.

(** ** C3: frame round trip *)

(** C3 at the failing input: a payload of 254 bytes, framed as
    [pn532_write_data] frames it and handed back to [pn532_read_data], is
    rejected with -1; the same holds for 255 bytes.  One byte less and the
    round trip succeeds. *)
Theorem read_data_rejects_254_byte_payload :
  fst (fst (pn532_read_data []
              254
              (boot [wire (drop 5 (write_data_frame (repeat 0x5a 254) 254))]
                    false)))
  = -1
  /\ fst (fst (pn532_read_data []
                 255
                 (boot [wire (drop 5 (write_data_frame (repeat 0x5a 255) 255))]
                       false)))
     = -1
  /\ fst (fst (pn532_read_data []
                 253
                 (boot [wire (drop 5 (write_data_frame (repeat 0x5a 253) 253))]
                       false)))
     = 253.
Proof. vm_compute. repeat split; reflexivity. Qed.

(** ** C5: chip-select bracket *)

(** Whenever the header peek of [pn532_read_response] yields less than 2,
    the function returns -1 with chip select still asserted. *)
Lemma read_response_early_return_nss (cmd : Z) (resp : list Z) (len : Z)
  (w w1 : world) :
  pn532_wait_ready w = (true, w1) ->
  fst (pn532_peak_response_len (pn532_begin_read DATA_READ w1)) < 2 ->
  fst (fst (pn532_read_response cmd resp len w)) = -1
  /\ nss_level (trace (snd (pn532_read_response cmd resp len w))) = false.
Proof.
  intros Hr Hp. unfold pn532_read_response. rewrite Hr. cbn [negb].
  assert (Ht : nss_level
                 (trace (snd (pn532_peak_response_len
                                (pn532_begin_read DATA_READ w1)))) = false).
  { unfold pn532_peak_response_len.
    destruct (pn532_do_read _ 5 _) as [[r buf] w3] eqn:E.
    assert (Hw : nss_level (trace w3) = false).
    { unfold pn532_do_read, spi_read_blocking in E.
      injection E as _ _ <-. reflexivity. }
    destruct (orb _ _); [exact Hw|].
    destruct (negb _); exact Hw. }
  destruct (pn532_peak_response_len _) as [real_len w3].
  cbn [fst snd] in *.
  destruct (real_len <? 0); [split; [reflexivity|exact Ht]|].
  destruct (real_len <? 2) eqn:E; [split; [reflexivity|exact Ht]|].
  apply Z.ltb_ge in E. lia.
Qed.

(** C5 at the failing inputs: the chip reports ready and then sends a
    header with a wrong start code, or a header declaring one payload byte.
    [pn532_read_response] returns -1 and chip select is still low; a
    header declaring a full frame leaves it high. *)
Theorem read_response_leaves_chip_select_low :
  (fst (fst (pn532_read_response 0x02 [] 4
               (boot [chip_ready; wire [0; 0; 0xfe; 6; 0xfa]] false))) = -1
   /\ nss_level
        (trace (snd (pn532_read_response 0x02 [] 4
                       (boot [chip_ready; wire [0; 0; 0xfe; 6; 0xfa]] false))))
      = false)
  /\ (fst (fst (pn532_read_response 0x02 [] 4
                  (boot [chip_ready; wire [0; 0; 0xff; 1; 0xff]] false))) = -1
      /\ nss_level
           (trace (snd (pn532_read_response 0x02 [] 4
                          (boot [chip_ready; wire [0; 0; 0xff; 1; 0xff]]
                                false))))
         = false)
  /\ nss_level
       (trace (snd (pn532_read_response 0x02 [] 4
                      (boot (chip_ready
                               :: chip_frame [0xd5; 0x03; 0x32; 1; 6; 7])
                            false))))
     = true.
Proof. vm_compute. repeat split; reflexivity. Qed.

(** ** C9: firmware version *)

(** The scenario of the specification: acknowledge, then payload
    D5 03 32 01 06 07. *)
Example firmware_ver_scenario :
  fst (pn532_firmware_ver
         (boot (chip_exchange [0xd5; 0x03; 0x32; 0x01; 0x06; 0x07]) false))
  = 0x32010607.
Proof. vm_compute. reflexivity. Qed.

(** A response read that yields fewer than 4 bytes, failures included,
    gives version 0. *)
Lemma firmware_ver_short_read (w : world) :
  fst (fst (pn532_read_response 0x02
              (uninit 4 (snd (pn532_write_command 0x02 [] 0 w))) 4
              (snd (pn532_write_command 0x02 [] 0 w))))
  < 4 ->
  fst (pn532_firmware_ver w) = 0.
Proof.
  intros H. unfold pn532_firmware_ver.
  pose proof (write_command_ret_nonneg 0x02 [] 0 w) as Hn.
  destruct (pn532_write_command 0x02 [] 0 w) as [ret w1].
  cbn [fst snd] in *. rewrite Hn.
  destruct (pn532_read_response 0x02 (uninit 4 w1) 4 w1) as [[res ver] w2].
  cbn [fst] in H. apply Z.ltb_lt in H. rewrite H. reflexivity.
Qed.

(** C9 at the failing input: the chip answers the command with a NACK
    frame, so the command write fails ([pn532_write_command] returns 0),
    and then delivers a version frame; [pn532_firmware_ver] returns
    0x32010607 instead of 0. *)
Theorem firmware_ver_ignores_failed_write :
  fst (pn532_write_command 0x02 [] 0
         (boot ([chip_ready; chip_nack; chip_ready]
                  ++ chip_frame [0xd5; 0x03; 0x32; 0x01; 0x06; 0x07])
               false))
  = 0
  /\ fst (pn532_firmware_ver
            (boot ([chip_ready; chip_nack; chip_ready]
                     ++ chip_frame [0xd5; 0x03; 0x32; 0x01; 0x06; 0x07])
                  false))
     = 0x32010607.
Proof. vm_compute. split; reflexivity. Qed.

(** ** Further runs *)

Example reverse_bit_data_write : reverse_bit DATA_WRITE = 0x80.
Proof. reflexivity. Qed.

Example felica_read_served_run :
  exists w1,
    pn532_felica_read 0x000b 0x8005 (repeat 0xee 16)
      (boot (chip_exchange felica_read_served) false)
    = Some (true,
            [0x10; 0x11; 0x12; 0x13; 0x14; 0x15; 0x16; 0x17;
             0x18; 0x19; 0x1a; 0x1b; 0x1c; 0x1d; 0x1e; 0x1f],
            w1).
Proof. eexists. vm_compute. reflexivity. Qed.

(** A one-byte body with status 0 over a scratch buffer whose second byte
    is 0 drives the [memmove] of [pn532_felica_command] to length -1. *)
Example felica_command_negative_length :
  pn532_felica_command 0x06 (felica_block_param 0x000b 0x8005) 6
    (boot (chip_exchange [0xd5; 0x41; 0x00]) false)
  = None.
Proof. vm_compute. reflexivity. Qed.

(** * Further properties *)

(** ** Bit adapter *)

Lemma reverse_bit_byte (x : Z) : is_byte (reverse_bit x).
Proof.
  unfold reverse_bit.
  assert (G : forall (l : list Z) (y : Z), is_byte y ->
            is_byte (fold_left
                       (fun y i =>
                          if Z.land x (Z.shiftl 1 i) =? 0 then y
                          else uint8 (Z.lor y (Z.shiftl 1 (8 - i - 1))))
                       l y)).
  { induction l as [|i l IH]; intros y Hy; cbn [fold_left]; [exact Hy|].
    apply IH. destruct (_ =? 0); [exact Hy|].
    unfold uint8, is_byte. apply Z.mod_pos_bound. lia. }
  apply G. unfold is_byte. lia.
Qed.

(** X1: on a byte, [reverse_bit] mirrors the bit positions: bit [i] of the
    result is bit [7 - i] of the argument, for [i] from 0 to 7. *)
Theorem reverse_bit_mirrors_bits (x i : Z) :
  is_byte x -> 0 <= i < 8 ->
  Z.testbit (reverse_bit x) i = Z.testbit x (7 - i).
Proof.
  intros Hx Hi. apply in_all_bytes in Hx.
  assert (A : forallb
                (fun b =>
                   forallb
                     (fun j =>
                        Bool.eqb (Z.testbit (reverse_bit b) j)
                                 (Z.testbit b (7 - j)))
                     [0; 1; 2; 3; 4; 5; 6; 7])
                all_bytes = true) by (vm_compute; reflexivity).
  rewrite forallb_forall in A. specialize (A x Hx).
  rewrite forallb_forall in A. apply Bool.eqb_prop, A.
  assert (E : i = 0 \/ i = 1 \/ i = 2 \/ i = 3 \/ i = 4 \/ i = 5 \/ i = 6
              \/ i = 7) by lia.
  cbn [In]. intuition.
Qed.

Lemma reverse_bit_mirrors_bits_witness :
  Z.testbit (reverse_bit 0x01) 7 = Z.testbit 0x01 (7 - 7).
Proof.
  apply (reverse_bit_mirrors_bits 0x01 7).
  - unfold is_byte. lia.
  - lia.
Defined.

(** X2: applying [reverse_bit] twice to a byte gives the byte back. *)
Theorem reverse_bit_twice (b : Z) :
  is_byte b -> reverse_bit (reverse_bit b) = b.
Proof. exact (reverse_bit_involutive b). Qed.

Lemma reverse_bit_twice_witness : reverse_bit (reverse_bit 0xd5) = 0xd5.
Proof. apply (reverse_bit_twice 0xd5). unfold is_byte. lia. Defined.

(** ** Frame layout *)

Lemma length_checksum_cancels (n : Z) : uint8 (n + uint8 (Z.lnot n + 1)) = 0.
Proof.
  unfold uint8, Z.lnot. rewrite Zplus_mod_idemp_r.
  replace (n + (Z.pred (- n) + 1)) with 0 by lia. reflexivity.
Qed.

(** X3: the frame that [pn532_write_data] builds for a payload has 7 more
    bytes than the payload: it starts with 00 00 FF, then the length and a
    length checksum that add up to 0 modulo 256, then the payload, then a
    checksum that brings the byte sum of the payload to 0 modulo 256, then
    00. *)
Theorem write_data_frame_layout (payload : list Z) :
  let n := Z.of_nat (length payload) in
  let frame := write_data_frame payload n in
  Z.of_nat (length frame) = 7 + n
  /\ take 3 frame = [0; 0; 0xff]
  /\ at_ frame 3 = n
  /\ uint8 (at_ frame 3 + at_ frame 4) = 0
  /\ take n (drop 5 frame) = payload
  /\ uint8 (byte_sum payload + at_ frame (5 + n)) = 0
  /\ at_ frame (6 + n) = 0.
Proof.
  intros n frame.
  assert (F : frame
              = [0; 0; 0xff; n; uint8 (Z.lnot n + 1)]
                  ++ payload
                  ++ [uint8 (Z.lnot (fold_left checksum_step payload 0xff)); 0]).
  { unfold frame, write_data_frame. rewrite take_all by (unfold n; lia).
    reflexivity. }
  assert (D : drop 5 frame
              = payload
                  ++ [uint8 (Z.lnot (fold_left checksum_step payload 0xff)); 0])
    by (rewrite F; reflexivity).
  repeat apply conj.
  - rewrite F. cbn [length app]. rewrite length_app. cbn [length].
    unfold n. lia.
  - rewrite F. reflexivity.
  - rewrite F. reflexivity.
  - rewrite F. cbn [app]. change (at_ (?a :: ?b :: ?c :: ?d :: ?e :: ?l) 3) with d.
    change (at_ (?a :: ?b :: ?c :: ?d :: ?e :: ?l) 4) with e.
    apply length_checksum_cancels.
  - rewrite D. unfold take, n. rewrite Nat2Z.id.
    rewrite firstn_app, firstn_all, Nat.sub_diag, firstn_0. apply app_nil_r.
  - replace (at_ frame (5 + n))
      with (uint8 (Z.lnot (fold_left checksum_step payload 0xff))).
    + pose proof (write_data_checksum_cancels payload) as C.
      unfold byte_sum in C. rewrite fold_left_app in C. cbn [fold_left] in C.
      exact C.
    + unfold at_. replace (Z.to_nat (5 + n)) with (5 + length payload)%nat
        by (unfold n; lia).
      rewrite <- (nth_skipn 5 frame). change (skipn 5 frame) with (drop 5 frame). rewrite D.
      rewrite <- (Nat.add_0_r (length payload)) at 1.
      now rewrite app_nth2_plus.
  - unfold at_. replace (Z.to_nat (6 + n)) with (5 + (length payload + 1))%nat
      by (unfold n; lia).
    rewrite <- (nth_skipn 5 frame). change (skipn 5 frame) with (drop 5 frame). rewrite D.
    now rewrite app_nth2_plus.
Qed.

(** X4: a payload of at most 253 bytes, framed as [pn532_write_data]
    frames it, is decoded by [pn532_read_data]: the result is the payload
    length and the output array starts with the payload. *)
Theorem read_data_recovers_payload (payload data : list Z)
  (rest : list (list Z)) (w : world) :
  Forall is_byte payload ->
  Z.of_nat (length payload) <= 253 ->
  miso w
  = wire (drop 5 (write_data_frame payload (Z.of_nat (length payload))))
      :: rest ->
  fst (fst (pn532_read_data data (Z.of_nat (length payload)) w))
  = Z.of_nat (length payload)
  /\ take (Z.of_nat (length payload))
          (snd (fst (pn532_read_data data (Z.of_nat (length payload)) w)))
     = payload.
Proof. exact (write_read_roundtrip payload data rest w). Qed.

Lemma read_data_recovers_payload_witness :
  fst (fst (pn532_read_data (repeat 0xee 3) 3
              (boot [wire (drop 5 (write_data_frame [0xd4; 0x4a; 0x01] 3))]
                    false)))
  = 3
  /\ take 3
       (snd (fst (pn532_read_data (repeat 0xee 3) 3
                    (boot [wire (drop 5 (write_data_frame [0xd4; 0x4a; 0x01] 3))]
                          false))))
     = [0xd4; 0x4a; 0x01].
Proof.
  apply (read_data_recovers_payload [0xd4; 0x4a; 0x01] (repeat 0xee 3) []
           (boot [wire (drop 5 (write_data_frame [0xd4; 0x4a; 0x01] 3))]
                 false)).
  - byte_list.
  - vm_compute. discriminate.
  - reflexivity.
Defined.

(** ** Ready polling *)

Lemma same_statics_refl (w : world) : same_statics w w.
Proof. repeat split. Qed.

Lemma same_statics_trans (w1 w2 w3 : world) :
  same_statics w1 w2 -> same_statics w2 w3 -> same_statics w1 w3.
Proof.
  intros (A1 & A2 & A3 & A4) (B1 & B2 & B3 & B4).
  repeat split; congruence.
Qed.

(** The world in which the loop of [pn532_wait_ready] goes on after a
    failed attempt. *)
Lemma wait_ready_loop_busy (n : nat) (w : world) :
  reply_ready (hd [] (miso w)) = false ->
  exists w1,
    wait_ready_loop (S n) w = wait_ready_loop n w1
    /\ miso w1 = tl (miso w)
    /\ same_statics w w1
    /\ wait_loop_calls (trace w1)
       = (wait_loop_calls (trace w) + (if wait_loop w then 1 else 0))%nat
    /\ nss_level (trace w1) = true.
Proof.
  intros H. rewrite wait_ready_loop_step, H.
  eexists. split; [reflexivity|].
  destruct (wait_loop w) eqn:E; cbn [sleep_ms_rtos emit miso trace
                                     wait_loop_calls nss_level];
    rewrite status_poll_miso, status_poll_calls, status_poll_nss;
    (split; [reflexivity|]); (split; [|split; [lia|reflexivity]]);
    repeat split; cbn; auto.
Qed.

Lemma wait_ready_loop_timeout (n : nat) (w : world) :
  existsb reply_ready (firstn n (miso w)) = false ->
  fst (wait_ready_loop n w) = false
  /\ miso (snd (wait_ready_loop n w)) = skipn n (miso w)
  /\ wait_loop_calls (trace (snd (wait_ready_loop n w)))
     = (wait_loop_calls (trace w) + (if wait_loop w then n else 0))%nat
  /\ same_statics w (snd (wait_ready_loop n w)).
Proof.
  revert w. induction n as [|n IH]; intros w H.
  - cbn. repeat split. destruct (wait_loop w); lia.
  - assert (Hb : reply_ready (hd [] (miso w)) = false
                 /\ existsb reply_ready (firstn n (tl (miso w))) = false).
    { destruct (miso w) as [|r m]; cbn [firstn existsb hd tl] in *.
      - split; [reflexivity|]. now rewrite firstn_nil.
      - now apply orb_false_iff in H. }
    destruct Hb as [Hb Ht].
    destruct (wait_ready_loop_busy n w Hb) as (w1 & E & Hm & Hs & Hc & _).
    rewrite E. rewrite <- Hm in Ht.
    destruct (IH w1 Ht) as (I1 & I2 & I3 & I4).
    refine (conj _ (conj _ (conj _ _))).
    + exact I1.
    + rewrite I2, Hm. destruct (miso w); cbn [tl skipn];
        [now rewrite skipn_nil|reflexivity].
    + rewrite I3, Hc. destruct Hs as (_ & _ & -> & _).
      destruct (wait_loop w); lia.
    + exact (same_statics_trans _ _ _ Hs I4).
Qed.

Lemma wait_ready_loop_after_busy (pre : list (list Z)) :
  forall (n : nat) (w : world) (r : list Z) (rest : list (list Z)),
    miso w = pre ++ r :: rest ->
    forallb reply_busy pre = true ->
    reply_ready r = true ->
    (length pre < n)%nat ->
    fst (wait_ready_loop n w) = true
    /\ miso (snd (wait_ready_loop n w)) = rest
    /\ wait_loop_calls (trace (snd (wait_ready_loop n w)))
       = (wait_loop_calls (trace w)
          + (if wait_loop w then length pre else 0))%nat
    /\ same_statics w (snd (wait_ready_loop n w))
    /\ nss_level (trace (snd (wait_ready_loop n w))) = true.
Proof.
  induction pre as [|b pre IH]; intros n w r rest Hm Hp Hr Hn.
  - destruct n as [|n]; [cbn in Hn; lia|].
    rewrite wait_ready_loop_step, Hm. cbn [app hd]. rewrite Hr.
    cbn [fst snd]. rewrite status_poll_miso, status_poll_calls, Hm.
    cbn [tl app].
    refine (conj _ (conj _ (conj _ (conj _ _)))); try reflexivity.
    + destruct (wait_loop w); cbn; lia.
    + repeat split.
  - destruct n as [|n]; [cbn in Hn; lia|].
    cbn [forallb] in Hp. apply andb_true_iff in Hp. destruct Hp as [Hb Hp].
    unfold reply_busy in Hb. apply negb_true_iff in Hb.
    assert (Hh : reply_ready (hd [] (miso w)) = false) by now rewrite Hm.
    destruct (wait_ready_loop_busy n w Hh) as (w1 & E & Hm1 & Hs & Hc & _).
    rewrite E. rewrite Hm in Hm1. cbn [app tl] in Hm1.
    destruct (IH n w1 r rest Hm1 Hp Hr ltac:(cbn in Hn; lia))
      as (I1 & I2 & I3 & I4 & I5).
    refine (conj _ (conj _ (conj _ (conj _ _)))); try assumption.
    + rewrite I3, Hc. destruct Hs as (_ & _ & -> & _).
      destruct (wait_loop w); cbn [length]; lia.
    + exact (same_statics_trans _ _ _ Hs I4).
Qed.

(** X5: if the chip answers some status reads, fewer than 30, with
    something other than "ready" and the next one with "ready",
    [pn532_wait_ready] returns true, has consumed exactly these replies,
    and has called a registered idle callback once per failed attempt (an
    unregistered one never). *)
Theorem wait_ready_after_busy_polls (pre : list (list Z)) (r : list Z)
  (rest : list (list Z)) (w : world) :
  miso w = pre ++ r :: rest ->
  forallb reply_busy pre = true ->
  reply_ready r = true ->
  (length pre < 30)%nat ->
  fst (pn532_wait_ready w) = true
  /\ miso (snd (pn532_wait_ready w)) = rest
  /\ wait_loop_calls (trace (snd (pn532_wait_ready w)))
     = (wait_loop_calls (trace w)
        + (if wait_loop w then length pre else 0))%nat.
Proof.
  intros Hm Hp Hr Hn.
  destruct (wait_ready_loop_after_busy pre 30 w r rest Hm Hp Hr Hn)
    as (A & B & C & _).
  repeat apply conj; assumption.
Qed.

Lemma wait_ready_after_busy_polls_witness :
  fst (pn532_wait_ready
         (boot [wire [0x00]; []; chip_ready; chip_ack] true)) = true
  /\ miso (snd (pn532_wait_ready
                  (boot [wire [0x00]; []; chip_ready; chip_ack] true)))
     = [chip_ack]
  /\ wait_loop_calls
       (trace (snd (pn532_wait_ready
                      (boot [wire [0x00]; []; chip_ready; chip_ack] true))))
     = 2%nat.
Proof.
  apply (wait_ready_after_busy_polls [wire [0x00]; []] chip_ready [chip_ack]
           (boot [wire [0x00]; []; chip_ready; chip_ack] true)).
  - reflexivity.
  - vm_compute. reflexivity.
  - vm_compute. reflexivity.
  - cbn. lia.
Defined.

(** X6: if none of the replies to the 30 status reads reports "ready",
    [pn532_wait_ready] returns false after consuming 30 replies, with 30
    calls of a registered idle callback and none of an unregistered one. *)
Theorem wait_ready_timeout (w : world) :
  existsb reply_ready (firstn 30 (miso w)) = false ->
  fst (pn532_wait_ready w) = false
  /\ miso (snd (pn532_wait_ready w)) = skipn 30 (miso w)
  /\ wait_loop_calls (trace (snd (pn532_wait_ready w)))
     = (wait_loop_calls (trace w) + (if wait_loop w then 30 else 0))%nat.
Proof.
  intros H. destruct (wait_ready_loop_timeout 30 w H) as (A & B & C & _).
  repeat apply conj; assumption.
Qed.

Lemma wait_ready_timeout_witness :
  fst (pn532_wait_ready (boot (repeat (wire [0x00]) 31) false)) = false
  /\ miso (snd (pn532_wait_ready (boot (repeat (wire [0x00]) 31) false)))
     = skipn 30 (repeat (wire [0x00]) 31)
  /\ wait_loop_calls
       (trace (snd (pn532_wait_ready (boot (repeat (wire [0x00]) 31) false))))
     = (0 + 0)%nat.
Proof.
  apply (wait_ready_timeout (boot (repeat (wire [0x00]) 31) false)).
  vm_compute. reflexivity.
Defined.

Lemma wait_ready_loop_nss (n : nat) (w : world) :
  nss_level (trace w) = true ->
  nss_level (trace (snd (wait_ready_loop n w))) = true.
Proof.
  revert w. induction n as [|n IH]; intros w H; [exact H|].
  rewrite wait_ready_loop_step.
  destruct (reply_ready _); [apply status_poll_nss|].
  apply IH. destruct (wait_loop w); reflexivity.
Qed.

(** X7: whatever the chip answers and whatever the level of chip select
    before the call, chip select is released when [pn532_wait_ready]
    returns. *)
Theorem wait_ready_releases_chip_select (w : world) :
  nss_level (trace (snd (pn532_wait_ready w))) = true.
Proof.
  unfold pn532_wait_ready.
  change 30%nat with (S 29). rewrite wait_ready_loop_step.
  destruct (reply_ready _); [apply status_poll_nss|].
  apply wait_ready_loop_nss. destruct (wait_loop w); reflexivity.
Qed.

Lemma wait_ready_loop_unregistered (n : nat) (w : world) :
  wait_loop w = false ->
  wait_loop_calls (trace (snd (wait_ready_loop n w)))
  = wait_loop_calls (trace w).
Proof.
  revert w. induction n as [|n IH]; intros w H; [reflexivity|].
  rewrite wait_ready_loop_step, H.
  destruct (reply_ready _); [apply status_poll_calls|].
  rewrite IH; [apply status_poll_calls|exact H].
Qed.

(** X8: after [pn532_set_wait_loop (NULL)] a ready wait calls no idle
    callback, however long it polls. *)
Theorem set_wait_loop_null_silences_wait (w : world) :
  wait_loop_calls (trace (snd (pn532_wait_ready (pn532_set_wait_loop false w))))
  = wait_loop_calls (trace w).
Proof.
  unfold pn532_wait_ready.
  now rewrite wait_ready_loop_unregistered.
Qed.

(** ** Acknowledge *)

(** X9: once the chip has reported ready and delivers six bytes,
    [read_ack] returns true exactly when these are 00 00 FF 00 FF 00. *)
Theorem read_ack_iff_pattern (bytes : list Z) (rest : list (list Z))
  (w w1 : world) :
  pn532_wait_ready w = (true, w1) ->
  miso w1 = wire bytes :: rest ->
  Forall is_byte bytes ->
  length bytes = 6%nat ->
  fst (read_ack w) = true <-> bytes = [0; 0; 0xff; 0; 0xff; 0].
Proof.
  intros Hr Hm Hb Hl. unfold read_ack. rewrite Hr. cbn [negb].
  unfold read_frame.
  rewrite (do_read_full (uninit 6 w) bytes rest 6
             (pn532_begin_read DATA_READ w1) Hm Hb)
    by (rewrite ?uninit_length, Hl; cbn; lia).
  rewrite take_all by (rewrite Hl; cbn; lia).
  fold expect_ack. rewrite <- bytes_eqb_eq.
  destruct (bytes_eqb bytes expect_ack); cbn; split; congruence.
Qed.

Lemma read_ack_iff_pattern_witness :
  fst (read_ack (boot [chip_ready; wire [0; 0; 0xff; 0; 0xff; 1]] false))
  = true
  <-> [0; 0; 0xff; 0; 0xff; 1] = [0; 0; 0xff; 0; 0xff; 0].
Proof.
  eapply (read_ack_iff_pattern [0; 0; 0xff; 0; 0xff; 1] []
            (boot [chip_ready; wire [0; 0; 0xff; 0; 0xff; 1]] false)).
  - vm_compute. reflexivity.
  - reflexivity.
  - byte_list.
  - reflexivity.
Defined.

(** ** Exchanges with a chip that answers in full *)

Lemma wait_ready_chip_ready (rest : list (list Z)) (w : world) :
  miso w = chip_ready :: rest ->
  pn532_wait_ready w = (true, status_poll w).
Proof.
  intros Hm. unfold pn532_wait_ready. change 30%nat with (S 29).
  rewrite wait_ready_loop_step, Hm. reflexivity.
Qed.

Lemma read_ack_acked (rest : list (list Z)) (w : world) :
  miso w = chip_ready :: chip_ack :: rest ->
  exists w',
    read_ack w = (true, w')
    /\ miso w' = rest
    /\ same_statics w w'
    /\ nss_level (trace w') = true.
Proof.
  intros Hm. unfold read_ack.
  rewrite (wait_ready_chip_ready _ w Hm). cbn [negb].
  assert (Hm1 : miso (pn532_begin_read DATA_READ (status_poll w))
                = wire expect_ack :: rest)
    by (change (miso (pn532_begin_read DATA_READ (status_poll w)))
          with (miso (status_poll w));
        rewrite status_poll_miso, Hm; reflexivity).
  unfold read_frame.
  rewrite (do_read_full (uninit 6 w) expect_ack rest 6 _ Hm1)
    by (try byte_list; rewrite ?uninit_length; cbn; lia).
  eexists. split; [reflexivity|].
  refine (conj _ (conj _ _)); try reflexivity. repeat split.
Qed.

Lemma write_command_acked (cmd : Z) (param : list Z) (len : Z)
  (rest : list (list Z)) (w : world) :
  miso w = chip_ready :: chip_ack :: rest ->
  exists w',
    pn532_write_command cmd param len w = (1, w')
    /\ miso w' = rest
    /\ same_statics w w'
    /\ nss_level (trace w') = true.
Proof.
  intros Hm. unfold pn532_write_command, pn532_write_data, write_frame,
    pn532_write, spi_write_blocking.
  set (w1 := sleep_ms_rtos 2 _).
  destruct (read_ack_acked rest w1 Hm) as (w' & E & A & B & C).
  rewrite E. exists w'. repeat apply conj; try assumption; try reflexivity;
    apply B.
Qed.

Lemma chip_frame_eq (payload : list Z) :
  chip_frame payload
  = [wire [PN532_PREAMBLE; PN532_STARTCODE1; PN532_STARTCODE2;
           Z.of_nat (length payload);
           uint8 (Z.lnot (Z.of_nat (length payload)) + 1)];
     wire (payload
             ++ [uint8 (Z.lnot (fold_left checksum_step payload 0xff));
                 PN532_POSTAMBLE])].
Proof.
  unfold chip_frame. rewrite write_data_frame_section.
  unfold write_data_frame. reflexivity.
Qed.

Lemma uint8_byte (x : Z) : is_byte (uint8 x).
Proof. unfold is_byte, uint8. apply Z.mod_pos_bound. lia. Qed.

(** The response read against a chip that reports ready and delivers a
    well-formed frame for the command: the body is handed over when it has
    between 1 and [len] bytes, and refused otherwise. *)
Lemma read_response_frame (cmd : Z) (resp body : list Z) (len : Z)
  (rest : list (list Z)) (w : world) :
  miso w = chip_ready :: chip_frame ([PN532_PN532TOHOST; cmd + 1] ++ body)
             ++ rest ->
  Forall is_byte body -> is_byte (cmd + 1) ->
  Z.of_nat (length body) <= 251 -> 0 <= len ->
  exists w',
    pn532_read_response cmd resp len w
    = ((if (1 <=? Z.of_nat (length body)) && (Z.of_nat (length body) <=? len)
        then Z.of_nat (length body) else -1),
       (if (1 <=? Z.of_nat (length body)) && (Z.of_nat (length body) <=? len)
        then store body resp else resp),
       w')
    /\ miso w' = rest
    /\ same_statics w w'
    /\ nss_level (trace w') = true.
Proof.
  intros Hm Hb Hc Hn Hlen.
  set (payload := [PN532_PN532TOHOST; cmd + 1] ++ body) in *.
  assert (HL : Z.of_nat (length payload) = Z.of_nat (length body) + 2)
    by (unfold payload; cbn [length app]; lia).
  assert (Hp : Forall is_byte payload)
    by (unfold payload; cbn [app]; repeat apply Forall_cons;
        [vm_compute; split; [discriminate|reflexivity]|exact Hc|exact Hb]).
  rewrite chip_frame_eq in Hm. cbn [app] in Hm.
  set (L := Z.of_nat (length payload)) in *.
  set (dcs := uint8 (Z.lnot (fold_left checksum_step payload 0xff))) in *.
  unfold pn532_read_response.
  rewrite (wait_ready_chip_ready _ w Hm). cbn [negb].
  assert (Hm1 : miso (pn532_begin_read DATA_READ (status_poll w))
                = wire [PN532_PREAMBLE; PN532_STARTCODE1; PN532_STARTCODE2;
                        L; uint8 (Z.lnot L + 1)]
                    :: wire (payload ++ [dcs; PN532_POSTAMBLE]) :: rest)
    by (change (miso (pn532_begin_read DATA_READ (status_poll w)))
          with (miso (status_poll w));
        rewrite status_poll_miso, Hm; reflexivity).
  rewrite (peak_response_len_header _ _ _ _ _ _ _ Hm1)
    by (repeat apply Forall_cons; try apply Forall_nil;
        try apply uint8_byte;
        try (vm_compute; split; [discriminate|reflexivity]);
        unfold is_byte; lia).
  rewrite !Z.eqb_refl, length_checksum_cancels. cbn [negb orb Z.eqb].
  destruct (L <? 0) eqn:E0; [apply Z.ltb_lt in E0; lia|].
  destruct (L <? 2) eqn:E2; [apply Z.ltb_lt in E2; lia|].
  set (w3 := emit (SpiRead 5) _).
  assert (Hsec : Forall is_byte (payload ++ [dcs; PN532_POSTAMBLE])).
  { apply Forall_app. split; [exact Hp|].
    repeat apply Forall_cons; try apply Forall_nil;
      [apply uint8_byte|vm_compute; split; [discriminate|reflexivity]]. }
  assert (Hlen2 : Z.of_nat (length (payload ++ [dcs; PN532_POSTAMBLE]))
                  = L + 2)
    by (rewrite length_app; cbn [length]; lia).
  rewrite (read_data_section (uninit L w3) (payload ++ [dcs; PN532_POSTAMBLE])
             L rest w3 eq_refl Hsec Hlen2 ltac:(lia)).
  assert (Htk : take (L + 1) (payload ++ [dcs; PN532_POSTAMBLE])
                = payload ++ [dcs]) by (unfold L; apply take_succ_section).
  assert (Hat : at_ (payload ++ [dcs; PN532_POSTAMBLE]) (L + 1)
                = PN532_POSTAMBLE) by (unfold L; apply at_succ_section).
  rewrite !Htk, Hat.
  unfold dcs at 1. rewrite write_data_checksum_cancels.
  cbn [Z.eqb negb]. rewrite Z.eqb_refl. cbn [negb orb].
  rewrite store_all
    by (rewrite uninit_length, length_app; cbn [length]; lia).
  unfold payload at 1 2. cbn [app].
  change (at_ (PN532_PN532TOHOST :: cmd + 1 :: ?l) 0) with PN532_PN532TOHOST.
  change (at_ (PN532_PN532TOHOST :: cmd + 1 :: ?l) 1) with (cmd + 1).
  rewrite !Z.eqb_refl. cbn [negb orb].
  replace (L - 2) with (Z.of_nat (length body)) by lia.
  eexists. split.
  - destruct (Z.of_nat (length body) >? len) eqn:G.
    + assert (Hf : (Z.of_nat (length body) <=? len) = false)
        by (apply Z.leb_gt; apply Z.gtb_lt in G; lia).
      rewrite Hf, andb_false_r. reflexivity.
    + assert (Ht : (Z.of_nat (length body) <=? len) = true)
        by (apply Z.leb_le; rewrite Z.gtb_ltb in G; apply Z.ltb_ge in G; lia).
      rewrite Ht, andb_true_r.
      destruct (Z.of_nat (length body) <=? 0) eqn:Z0.
      * assert (Hf : (1 <=? Z.of_nat (length body)) = false)
          by (apply Z.leb_gt; apply Z.leb_le in Z0; lia).
        rewrite Hf. reflexivity.
      * assert (Ht1 : (1 <=? Z.of_nat (length body)) = true)
          by (apply Z.leb_le; apply Z.leb_gt in Z0; lia).
        rewrite Ht1.
        replace (take (Z.of_nat (length body)) (drop 2 (payload ++ [dcs])))
          with body; [reflexivity|].
        change (drop 2 (payload ++ [dcs])) with (body ++ [dcs]).
        unfold take. rewrite Nat2Z.id.
        rewrite firstn_app, firstn_all, Nat.sub_diag, firstn_0.
        symmetry. apply app_nil_r.
  - refine (conj _ (conj _ _)); try reflexivity. repeat split.
Qed.

(** ** Bytes in, bytes out *)

Lemma Forall_take (P : Z -> Prop) (n : Z) (l : list Z) :
  Forall P l -> Forall P (take n l).
Proof.
  unfold take. generalize (Z.to_nat n) as k. intros k H. revert k.
  induction H as [|x l Hx _ IH]; intros [|k]; cbn [firstn];
    constructor; auto.
Qed.

Lemma Forall_drop (P : Z -> Prop) (n : Z) (l : list Z) :
  Forall P l -> Forall P (drop n l).
Proof.
  unfold drop. generalize (Z.to_nat n) as k. intros k H. revert k.
  induction H as [|x l Hx H IH]; intros [|k]; cbn [skipn];
    try constructor; auto.
Qed.

Lemma at_byte (l : list Z) (i : Z) : Forall is_byte l -> is_byte (at_ l i).
Proof.
  intros H. unfold at_.
  destruct (nth_in_or_default (Z.to_nat i) l 0) as [Hin| ->].
  - rewrite Forall_forall in H. now apply H.
  - unfold is_byte. lia.
Qed.

Lemma take_take_le (a b : Z) (l : list Z) :
  a <= b -> take a (take b l) = take a l.
Proof.
  intros H. unfold take. rewrite firstn_firstn.
  now rewrite Nat.min_l by lia.
Qed.

Lemma at_take (n i : Z) (l : list Z) :
  0 <= i < n -> at_ (take n l) i = at_ l i.
Proof.
  intros H. unfold at_, take. rewrite nth_firstn.
  destruct (Nat.ltb_spec (Z.to_nat i) (Z.to_nat n)); [reflexivity|lia].
Qed.

Lemma do_read_length (buf : list Z) (len : Z) (w : world) :
  (length buf <= length (snd (fst (pn532_do_read buf len w))))%nat.
Proof.
  unfold pn532_do_read, spi_read_blocking. cbn [fst snd].
  etransitivity; [|apply store_length_dst]. apply store_length_dst.
Qed.

(** Whatever the transfer delivered, the [len] cells that [pn532_do_read]
    covers hold bytes afterwards. *)
Lemma do_read_prefix_bytes (buf : list Z) (len : Z) (w : world) :
  (Z.to_nat len <= length buf)%nat ->
  Forall is_byte (take len (snd (fst (pn532_do_read buf len w)))).
Proof.
  intros H. unfold pn532_do_read, spi_read_blocking. cbn [fst snd].
  set (data1 := store (take len (hd [] (miso w))) buf).
  assert (L1 : (Z.to_nat len <= length data1)%nat)
    by (etransitivity; [exact H|apply store_length_dst]).
  unfold store at 1, take at 1.
  rewrite firstn_app, length_map, take_length by exact L1.
  rewrite Nat.sub_diag, firstn_0, app_nil_r.
  rewrite firstn_all2 by (rewrite length_map, take_length by exact L1; lia).
  apply Forall_map, Forall_forall. intros x _. apply reverse_bit_byte.
Qed.

Lemma peak_response_len_range (w : world) :
  fst (pn532_peak_response_len w) = -1
  \/ is_byte (fst (pn532_peak_response_len w)).
Proof.
  unfold pn532_peak_response_len.
  pose proof (do_read_prefix_bytes (uninit 5 w) 5 w) as B.
  rewrite uninit_length in B. specialize (B (Nat.le_refl _)).
  destruct (pn532_do_read (uninit 5 w) 5 w) as [[r buf] w1].
  cbn [fst snd] in B.
  destruct (orb _ _); [now left|].
  destruct (negb _); [now left|].
  right. cbn [fst]. rewrite <- (at_take 5 3) by lia. now apply at_byte.
Qed.

(** A successful payload read: the length is at most 253 and the output
    array starts with [len + 1] bytes from the chip. *)
Lemma read_data_ok (data : list Z) (len : Z) (w : world) :
  0 <= len <= 255 ->
  fst (fst (pn532_read_data data len w)) = len ->
  len <= 253
  /\ exists got,
       snd (fst (pn532_read_data data len w)) = store got data
       /\ Z.of_nat (length got) = len + 1
       /\ Forall is_byte got.
Proof.
  intros Hr Hok.
  destruct (Z_le_gt_dec len 253) as [Hle|Hgt];
    [|rewrite read_data_wrap in Hok by lia; lia].
  split; [exact Hle|]. revert Hok. unfold pn532_read_data, read_frame.
  assert (Hu : uint8 (len + 2) = len + 2)
    by (unfold uint8; apply Z.mod_small; lia).
  rewrite Hu.
  pose proof (do_read_prefix_bytes (uninit (len + 2) w) (len + 2) w) as B.
  pose proof (do_read_length (uninit (len + 2) w) (len + 2) w) as Lr.
  rewrite uninit_length in B, Lr. specialize (B (Nat.le_refl _)).
  destruct (pn532_do_read (uninit (len + 2) w) (len + 2) w)
    as [[result resp] w1].
  cbn [fst snd] in B, Lr.
  assert (G : Z.of_nat (length (take (len + 1) resp)) = len + 1
              /\ Forall is_byte (take (len + 1) resp)).
  { split.
    - rewrite take_length by lia. lia.
    - rewrite <- (take_take_le (len + 1) (len + 2)) by lia.
      now apply Forall_take. }
  destruct (negb (result =? len + 2)); [cbn; lia|].
  destruct (negb (_ =? 0)); [cbn; lia|].
  destruct (negb (_ =? PN532_POSTAMBLE)); [cbn; lia|].
  intros _. exists (take (len + 1) resp). cbn [fst snd].
  split; [reflexivity|exact G].
Qed.

(** The two outcomes of [pn532_read_response]. *)
Lemma read_response_range (cmd : Z) (resp : list Z) (len : Z) (w : world) :
  (fst (fst (pn532_read_response cmd resp len w)) = -1
   /\ snd (fst (pn532_read_response cmd resp len w)) = resp)
  \/ (1 <= fst (fst (pn532_read_response cmd resp len w)) <= len
      /\ fst (fst (pn532_read_response cmd resp len w)) <= 251
      /\ exists body,
           Z.of_nat (length body)
           = fst (fst (pn532_read_response cmd resp len w))
           /\ Forall is_byte body
           /\ snd (fst (pn532_read_response cmd resp len w))
              = store body resp).
Proof.
  unfold pn532_read_response.
  destruct (pn532_wait_ready w) as [ready w1].
  destruct ready; cbn [negb]; [|now left].
  pose proof (peak_response_len_range (pn532_begin_read DATA_READ w1)) as P.
  destruct (pn532_peak_response_len _) as [real_len w3]. cbn [fst] in P.
  destruct (real_len <? 0) eqn:E0; [now left|].
  destruct (real_len <? 2) eqn:E2; [now left|].
  apply Z.ltb_ge in E0, E2.
  destruct P as [P|P]; [lia|]. unfold is_byte in P.
  pose proof (read_data_ok (uninit real_len w3) real_len w3 ltac:(lia)) as D.
  destruct (pn532_read_data _ _ _) as [[ret data] w4]. cbn [fst snd] in D.
  destruct (ret =? real_len) eqn:Er; cbn [negb orb]; [|now left].
  apply Z.eqb_eq in Er. destruct (D Er) as (Hle & got & -> & Lg & Bg).
  destruct (orb _ _); [now left|].
  destruct (real_len - 2 >? len) eqn:E1; [now left|].
  destruct (real_len - 2 <=? 0) eqn:E3; [now left|].
  right. cbn [fst snd].
  rewrite Z.gtb_ltb in E1. apply Z.ltb_ge in E1. apply Z.leb_gt in E3.
  split; [lia|]. split; [lia|].
  rewrite (store_all got (uninit real_len w3))
    by (rewrite uninit_length; lia).
  exists (take (real_len - 2) (drop 2 got)).
  split; [|split; [|reflexivity]].
  - unfold take, drop. rewrite length_firstn, length_skipn. lia.
  - now apply Forall_take, Forall_drop.
Qed.




(** X12: once the chip has reported ready, a frame of the declared size
    with a wrong preamble or start code, a length checksum or payload
    checksum that does not add up, or a wrong postamble makes
    [pn532_read_response] return -1 and leave the caller's array alone. *)
Theorem read_response_rejects_malformed
  (cmd : Z) (resp : list Z) (len : Z) (w w1 : world)
  (p s1 s2 l lcs : Z) (sec : list Z) (rest : list (list Z)) :
  pn532_wait_ready w = (true, w1) ->
  miso w1 = wire [p; s1; s2; l; lcs] :: wire sec :: rest ->
  Forall is_byte [p; s1; s2; l; lcs] ->
  Forall is_byte sec ->
  Z.of_nat (length sec) = l + 2 ->
  p <> 0x00 \/ s1 <> 0x00 \/ s2 <> 0xff \/ uint8 (l + lcs) <> 0
  \/ byte_sum (take (l + 1) sec) <> 0 \/ at_ sec (l + 1) <> 0x00 ->
  fst (fst (pn532_read_response cmd resp len w)) = -1
  /\ snd (fst (pn532_read_response cmd resp len w)) = resp.
Proof.
  intros Hr Hm Hh Hs Hl Hbad.
  assert (R : fst (fst (pn532_read_response cmd resp len w)) = -1).
  { unfold pn532_read_response. rewrite Hr. cbn [negb].
    rewrite (peak_response_len_header p s1 s2 l lcs (wire sec :: rest)
               (pn532_begin_read DATA_READ w1) Hm Hh).
    unfold PN532_PREAMBLE, PN532_STARTCODE1, PN532_STARTCODE2.
    destruct (p =? 0) eqn:Ep; cbn [negb orb]; [|reflexivity].
    destruct (s1 =? 0) eqn:Es1; cbn [negb orb]; [|reflexivity].
    destruct (s2 =? 255) eqn:Es2; cbn [negb orb]; [|reflexivity].
    destruct (uint8 (l + lcs) =? 0) eqn:Ec; cbn [negb]; [|reflexivity].
    apply Z.eqb_eq in Ep, Es1, Es2, Ec.
    destruct Hbad as [H|[H|[H|[H|Hbad]]]]; try contradiction.
    destruct (l <? 0); [reflexivity|].
    destruct (l <? 2); [reflexivity|].
    set (w3 := emit (SpiRead 5) _).
    assert (Hb : is_byte l)
      by (rewrite Forall_forall in Hh; apply Hh; cbn [In]; tauto).
    unfold is_byte in Hb.
    destruct (Z_le_gt_dec l 253) as [Hle|Hgt].
    - rewrite (read_data_section (uninit l w3) sec l rest w3 eq_refl Hs Hl Hle).
      unfold PN532_POSTAMBLE.
      assert (Hne : l <> -1) by lia.
      destruct Hbad as [H|H]; apply Z.eqb_neq in H; rewrite H; cbn [negb].
      + apply Z.eqb_neq in Hne. rewrite Z.eqb_sym in Hne. rewrite Hne.
        reflexivity.
      + destruct (byte_sum (take (l + 1) sec) =? 0); cbn [negb];
          (apply Z.eqb_neq in Hne; rewrite Z.eqb_sym in Hne; rewrite Hne;
           reflexivity).
    - pose proof (read_data_wrap (uninit l w3) l w3 ltac:(lia)) as Hw.
      destruct (pn532_read_data (uninit l w3) l w3) as [[ret data] w4].
      cbn [fst] in Hw. rewrite Hw.
      destruct (-1 =? l) eqn:E; [apply Z.eqb_eq in E; lia|]. reflexivity. }
  split; [exact R|].
  destruct (read_response_range cmd resp len w) as [[_ A]|[A _]];
    [exact A|lia].
Qed.

Lemma read_response_rejects_malformed_witness :
  fst (fst (pn532_read_response 0x02 (repeat 0xee 4) 4
              (boot [chip_ready; wire [0; 0; 0xff; 6; 0xfa];
                     wire [0xd5; 0x03; 0x32; 0x01; 0x06; 0x07; 0xe9; 0x00]]
                    false)))
  = -1
  /\ snd (fst (pn532_read_response 0x02 (repeat 0xee 4) 4
                 (boot [chip_ready; wire [0; 0; 0xff; 6; 0xfa];
                        wire [0xd5; 0x03; 0x32; 0x01; 0x06; 0x07; 0xe9; 0x00]]
                       false)))
     = repeat 0xee 4.
Proof.
  eapply (read_response_rejects_malformed 0x02 (repeat 0xee 4) 4 _ _
            0 0 0xff 6 0xfa
            [0xd5; 0x03; 0x32; 0x01; 0x06; 0x07; 0xe9; 0x00] []).
  - vm_compute. reflexivity.
  - reflexivity.
  - byte_list.
  - byte_list.
  - reflexivity.
  - do 4 right. left. vm_compute. discriminate.
Defined.

(** ** What goes out on the wire *)

Lemma wait_ready_loop_trace (n : nat) (w : world) :
  exists later, trace (snd (wait_ready_loop n w)) = later ++ trace w.
Proof.
  revert w. induction n as [|n IH]; intros w; [now exists []|].
  rewrite wait_ready_loop_step.
  destruct (reply_ready _).
  - now exists [SleepMs 2; GpioPut true; SpiRead 1;
                SpiWrite [reverse_bit STATUS_READ]; SleepMs 2; GpioPut false].
  - destruct (IH (sleep_ms_rtos 1
                    (if wait_loop w then emit WaitLoop (status_poll w)
                     else status_poll w))) as [later E].
    rewrite E. destruct (wait_loop w).
    + exists (later ++ [SleepMs 1; WaitLoop; SleepMs 2; GpioPut true;
                        SpiRead 1; SpiWrite [reverse_bit STATUS_READ];
                        SleepMs 2; GpioPut false]).
      now rewrite <- app_assoc.
    + exists (later ++ [SleepMs 1; SleepMs 2; GpioPut true;
                        SpiRead 1; SpiWrite [reverse_bit STATUS_READ];
                        SleepMs 2; GpioPut false]).
      now rewrite <- app_assoc.
Qed.

Lemma read_ack_trace (w : world) :
  exists later, trace (snd (read_ack w)) = later ++ trace w.
Proof.
  unfold read_ack.
  destruct (wait_ready_loop_trace 30 w) as [l1 E].
  fold (pn532_wait_ready w) in E.
  destruct (pn532_wait_ready w) as [ready w1]. cbn [snd] in E.
  destruct ready; cbn [negb]; [|now exists l1].
  unfold read_frame, pn532_do_read, spi_read_blocking.
  exists ([SleepMs 2; GpioPut true; SpiRead 6;
           SpiWrite [reverse_bit DATA_READ]; SleepMs 2; GpioPut false] ++ l1).
  destruct (negb _); cbn [snd]; cbn; now rewrite E.
Qed.

Lemma write_data_frame_length (data : list Z) (len : Z) :
  0 <= len -> (Z.to_nat len <= length data)%nat ->
  Z.of_nat (length (write_data_frame data len)) = 7 + len.
Proof.
  intros H0 H. unfold write_data_frame.
  cbn [length app]. rewrite length_app, take_length by exact H.
  cbn [length]. lia.
Qed.

(** X13: for a payload of at most 248 bytes, [pn532_write_data] first
    sends, within one chip-select bracket with its two settle delays, the
    data-write mode byte followed by the complete frame, every byte in
    wire bit order. *)
Theorem write_data_transmits_frame (data : list Z) (len : Z) (w : world) :
  0 <= len <= 248 ->
  (Z.to_nat len <= length data)%nat ->
  exists later,
    trace (snd (pn532_write_data data len w))
    = later
        ++ [SleepMs 2; GpioPut true;
            SpiWrite (wire (DATA_WRITE :: write_data_frame data len));
            SleepMs 2; GpioPut false]
        ++ trace w.
Proof.
  intros Hl Hd. unfold pn532_write_data, write_frame, pn532_write,
    spi_write_blocking.
  pose proof (write_data_frame_length data len ltac:(lia) Hd) as Lf.
  assert (Hu : uint8 (7 + len) = 7 + len)
    by (unfold uint8; apply Z.mod_small; lia).
  rewrite Hu.
  rewrite (take_all (7 + len) (write_data_frame data len)) by lia.
  rewrite (take_all (7 + len + 1))
    by (cbn [length]; rewrite length_map; lia).
  set (w1 := sleep_ms_rtos 2 _).
  destruct (read_ack_trace w1) as [later E].
  destruct (read_ack w1) as [ack w2]. cbn [snd] in *.
  exists later. rewrite E. reflexivity.
Qed.

Lemma write_data_transmits_frame_witness :
  exists later,
    trace (snd (pn532_write_data [0xd4; 0x02] 2 (boot [] false)))
    = later
        ++ [SleepMs 2; GpioPut true;
            SpiWrite (wire (DATA_WRITE :: write_data_frame [0xd4; 0x02] 2));
            SleepMs 2; GpioPut false]
        ++ trace (boot [] false).
Proof.
  apply (write_data_transmits_frame [0xd4; 0x02] 2 (boot [] false)).
  - lia.
  - cbn. lia.
Defined.

(** X14: for a payload of 249 to 255 bytes the length handed to
    [write_frame] wraps around: only the first [len - 249] bytes of the
    frame follow the mode byte on the wire. *)
Theorem write_data_truncates_long_frame (data : list Z) (len : Z)
  (w : world) :
  249 <= len <= 255 ->
  (Z.to_nat len <= length data)%nat ->
  exists later,
    trace (snd (pn532_write_data data len w))
    = later
        ++ [SleepMs 2; GpioPut true;
            SpiWrite (wire (DATA_WRITE
                              :: take (len - 249) (write_data_frame data len)));
            SleepMs 2; GpioPut false]
        ++ trace w.
Proof.
  intros Hl Hd. unfold pn532_write_data, write_frame, pn532_write,
    spi_write_blocking.
  pose proof (write_data_frame_length data len ltac:(lia) Hd) as Lf.
  assert (Hu : uint8 (7 + len) = len - 249).
  { unfold uint8. replace (7 + len) with ((len - 249) + 1 * 256) by lia.
    rewrite Z.mod_add by lia. apply Z.mod_small. lia. }
  rewrite Hu.
  rewrite (take_all (len - 249 + 1))
    by (cbn [length]; rewrite length_map, take_length by lia; lia).
  set (w1 := sleep_ms_rtos 2 _).
  destruct (read_ack_trace w1) as [later E].
  destruct (read_ack w1) as [ack w2]. cbn [snd] in *.
  exists later. rewrite E. reflexivity.
Qed.

Lemma write_data_truncates_long_frame_witness :
  exists later,
    trace (snd (pn532_write_data (repeat 0x5a 250) 250 (boot [] false)))
    = later
        ++ [SleepMs 2; GpioPut true;
            SpiWrite (wire (DATA_WRITE
                              :: take (250 - 249)
                                   (write_data_frame (repeat 0x5a 250) 250)));
            SleepMs 2; GpioPut false]
        ++ trace (boot [] false).
Proof.
  apply (write_data_truncates_long_frame (repeat 0x5a 250) 250 (boot [] false)).
  - lia.
  - rewrite repeat_length. lia.
Defined.

(** X15: when the chip reports ready and then acknowledges,
    [pn532_write_command] returns 1, has consumed exactly these two
    replies, leaves the driver's globals alone and ends with chip select
    released. *)
Theorem write_command_acknowledged (cmd : Z) (param : list Z) (len : Z)
  (rest : list (list Z)) (w : world) :
  miso w = chip_ready :: chip_ack :: rest ->
  exists w',
    pn532_write_command cmd param len w = (1, w')
    /\ miso w' = rest
    /\ same_statics w w'
    /\ nss_level (trace w') = true.
Proof. exact (write_command_acked cmd param len rest w). Qed.

Lemma write_command_acknowledged_witness :
  exists w',
    pn532_write_command 0x02 [] 0 (boot [chip_ready; chip_ack] true)
    = (1, w')
    /\ miso w' = []
    /\ same_statics (boot [chip_ready; chip_ack] true) w'
    /\ nss_level (trace w') = true.
Proof.
  apply (write_command_acknowledged 0x02 [] 0 []
           (boot [chip_ready; chip_ack] true)).
  reflexivity.
Defined.

(** ** What the exchange layer leaves alone *)

Lemma wait_ready_loop_statics (n : nat) (w : world) :
  same_statics w (snd (wait_ready_loop n w)).
Proof.
  revert w. induction n as [|n IH]; intros w; [apply same_statics_refl|].
  rewrite wait_ready_loop_step.
  destruct (reply_ready _); [repeat split|].
  eapply same_statics_trans; [|apply IH].
  destruct (wait_loop w); repeat split.
Qed.

Lemma read_ack_statics (w : world) : same_statics w (snd (read_ack w)).
Proof.
  unfold read_ack.
  pose proof (wait_ready_loop_statics 30 w) as H.
  fold (pn532_wait_ready w) in H.
  destruct (pn532_wait_ready w) as [ready w1]. cbn [snd] in H.
  destruct ready; cbn [negb]; [|exact H].
  unfold read_frame, pn532_do_read, spi_read_blocking.
  destruct (negb _); cbn [snd];
    (eapply same_statics_trans; [exact H|repeat split]).
Qed.

Lemma write_command_statics (cmd : Z) (param : list Z) (len : Z) (w : world) :
  same_statics w (snd (pn532_write_command cmd param len w)).
Proof.
  unfold pn532_write_command, pn532_write_data, write_frame, pn532_write,
    spi_write_blocking.
  set (w1 := sleep_ms_rtos 2 _).
  pose proof (read_ack_statics w1) as H.
  destruct (read_ack w1) as [ack w2]. cbn [snd] in *.
  eapply same_statics_trans; [|exact H]. repeat split.
Qed.

Lemma peak_response_len_statics (w : world) :
  same_statics w (snd (pn532_peak_response_len w)).
Proof.
  unfold pn532_peak_response_len, pn532_do_read, spi_read_blocking.
  destruct (orb _ _); [repeat split|].
  destruct (negb _); repeat split.
Qed.

Lemma read_data_statics (data : list Z) (len : Z) (w : world) :
  same_statics w (snd (pn532_read_data data len w)).
Proof.
  unfold pn532_read_data, read_frame, pn532_do_read, spi_read_blocking.
  destruct (negb (_ =? len + 2)); [repeat split|].
  destruct (negb (_ =? 0)); [repeat split|].
  destruct (negb (_ =? PN532_POSTAMBLE)); repeat split.
Qed.

Lemma read_response_statics (cmd : Z) (resp : list Z) (len : Z) (w : world) :
  same_statics w (snd (pn532_read_response cmd resp len w)).
Proof.
  unfold pn532_read_response.
  pose proof (wait_ready_loop_statics 30 w) as H.
  fold (pn532_wait_ready w) in H.
  destruct (pn532_wait_ready w) as [ready w1]. cbn [snd] in H.
  destruct ready; cbn [negb]; [|exact H].
  pose proof (peak_response_len_statics (pn532_begin_read DATA_READ w1)) as P.
  destruct (pn532_peak_response_len _) as [real_len w3]. cbn [snd] in P.
  assert (H3 : same_statics w w3).
  { eapply same_statics_trans; [exact H|].
    eapply same_statics_trans; [|exact P]. repeat split. }
  destruct (real_len <? 0); [exact H3|].
  destruct (real_len <? 2); [exact H3|].
  pose proof (read_data_statics (uninit real_len w3) real_len w3) as D.
  destruct (pn532_read_data _ _ _) as [[ret data] w4]. cbn [snd] in D.
  assert (H5 : same_statics w (pn532_end_read w4)).
  { eapply same_statics_trans; [exact H3|].
    eapply same_statics_trans; [exact D|]. repeat split. }
  destruct (orb _ _); [exact H5|].
  destruct (_ >? len); [exact H5|].
  destruct (_ <=? 0); exact H5.
Qed.

Lemma same_statics_set_readbuf (b : list Z) (w w' : world) :
  same_statics w w' ->
  felica_poll_cache (set_readbuf b w') = felica_poll_cache w
  /\ wait_loop (set_readbuf b w') = wait_loop w
  /\ stack_junk (set_readbuf b w') = stack_junk w.
Proof. intros (_ & A & B & C). repeat split; assumption. Qed.

(** ** The poll cache and the other entry points *)

Ltac cache_step H :=
  match goal with
  | |- context [pn532_write_command ?c ?p ?l ?w] =>
      pose proof (write_command_statics c p l w) as H;
      destruct (pn532_write_command c p l w) as [? ?]; cbn [snd] in H
  | |- context [pn532_read_response ?c ?r ?l ?w] =>
      pose proof (read_response_statics c r l w) as H;
      destruct (pn532_read_response c r l w) as [[? ?] ?]; cbn [snd] in H
  end.













(** X17: when [pn532_poll_felica] returns false, the three output arrays
    and the poll cache are as they were before the call. *)
Theorem poll_felica_failure_keeps_cache
  (uid pmm_out sc uid' pmm' sc' : list Z) (from_cache : bool) (w w' : world) :
  pn532_poll_felica uid pmm_out sc from_cache w
  = (false, uid', pmm', sc', w') ->
  uid' = uid /\ pmm' = pmm_out /\ sc' = sc
  /\ felica_poll_cache w' = felica_poll_cache w.
Proof.
  unfold pn532_poll_felica. destruct from_cache; [discriminate|].
  cache_step A. destruct (_ <? 0).
  - intros H. injection H as <- <- <- <-.
    repeat split. apply A.
  - cache_step B. destruct (orb _ _); [|discriminate].
    intros H. injection H as <- <- <- <-.
    repeat split. cbn [felica_poll_cache set_readbuf].
    destruct A as (_ & A & _), B as (_ & B & _). congruence.
Qed.

Lemma poll_felica_failure_keeps_cache_witness :
  exists w',
    pn532_poll_felica (repeat 7 8) (repeat 8 8) (repeat 9 2) false
      (boot [] false)
    = (false, repeat 7 8, repeat 8 8, repeat 9 2, w')
    /\ felica_poll_cache w' = felica_poll_cache (boot [] false).
Proof.
  eexists.
  assert (H : pn532_poll_felica (repeat 7 8) (repeat 8 8) (repeat 9 2) false
                (boot [] false)
              = (false, repeat 7 8, repeat 8 8, repeat 9 2, _))
    by (vm_compute; reflexivity).
  split; [exact H|].
  exact (proj2 (proj2 (proj2
           (poll_felica_failure_keeps_cache _ _ _ _ _ _ _ _ _ H)))).
Defined.

(** ** Complete exchanges *)

(** Command and response against a chip that acknowledges and answers
    with a well-formed frame for the command. *)
Lemma exchange_frame (cmd : Z) (param : list Z) (plen : Z)
  (resp body : list Z) (len : Z) (rest : list (list Z)) (w : world) :
  miso w = chip_exchange ([PN532_PN532TOHOST; cmd + 1] ++ body) ++ rest ->
  Forall is_byte body -> is_byte (cmd + 1) ->
  Z.of_nat (length body) <= 251 -> 0 <= len ->
  exists w1 w',
    pn532_write_command cmd param plen w = (1, w1)
    /\ same_statics w w1
    /\ pn532_read_response cmd resp len w1
       = ((if (1 <=? Z.of_nat (length body))
              && (Z.of_nat (length body) <=? len)
           then Z.of_nat (length body) else -1),
          (if (1 <=? Z.of_nat (length body))
              && (Z.of_nat (length body) <=? len)
           then store body resp else resp),
          w')
    /\ miso w' = rest
    /\ same_statics w w'
    /\ nss_level (trace w') = true.
Proof.
  intros Hm Hb Hc Hn Hlen.
  destruct (write_command_acked cmd param plen
              (chip_ready :: chip_frame ([PN532_PN532TOHOST; cmd + 1] ++ body)
                 ++ rest) w Hm) as (w1 & E1 & M1 & S1 & _).
  destruct (read_response_frame cmd resp body len rest w1 M1 Hb Hc Hn Hlen)
    as (w' & E2 & M2 & S2 & N2).
  exists w1, w'.
  refine (conj E1 (conj S1 (conj E2 (conj M2 (conj _ N2))))).
  exact (same_statics_trans _ _ _ S1 S2).
Qed.

(** *** Firmware version *)

Lemma land_shifted_byte (v b : Z) :
  is_byte b -> Z.land (Z.shiftl v 8) b = 0.
Proof.
  intros Hb. unfold is_byte in Hb. apply Z.bits_inj'. intros n Hn.
  rewrite Z.land_spec, Z.bits_0.
  destruct (Z.lt_ge_cases n 8) as [H|H].
  - now rewrite Z.shiftl_spec_low.
  - replace b with (b mod 2 ^ 8) by (apply Z.mod_small; lia).
    rewrite Z.mod_pow2_bits_high by lia. apply andb_false_r.
Qed.

Lemma version_step (v b : Z) :
  0 <= v < 16777216 -> is_byte b ->
  uint32 (Z.lor (uint32 (Z.shiftl v 8)) b) = v * 256 + b.
Proof.
  intros Hv Hb.
  assert (S : Z.shiftl v 8 = v * 256)
    by (rewrite Z.shiftl_mul_pow2 by lia; reflexivity).
  assert (U : uint32 (Z.shiftl v 8) = Z.shiftl v 8)
    by (unfold uint32; apply Z.mod_small; lia).
  rewrite U.
  pose proof (Z.add_lor_land (Z.shiftl v 8) b) as A.
  rewrite land_shifted_byte in A by exact Hb.
  rewrite Z.add_0_r in A. rewrite A, S.
  unfold uint32, is_byte in *. apply Z.mod_small. lia.
Qed.

Lemma version_fold (b0 b1 b2 b3 : Z) :
  is_byte b0 -> is_byte b1 -> is_byte b2 -> is_byte b3 ->
  fold_left (fun version b => uint32 (Z.lor (uint32 (Z.shiftl version 8)) b))
            [b0; b1; b2; b3] 0
  = be32 b0 b1 b2 b3.
Proof.
  intros H0 H1 H2 H3. cbn [fold_left]. unfold is_byte in *.
  rewrite (version_step 0 b0) by (unfold is_byte; lia).
  rewrite (version_step _ b1) by (unfold is_byte; lia).
  rewrite (version_step _ b2) by (unfold is_byte; lia).
  rewrite (version_step _ b3) by (unfold is_byte; lia).
  unfold be32. lia.
Qed.

Lemma firmware_ver_exchange (b0 b1 b2 b3 : Z) (rest : list (list Z))
  (w : world) :
  miso w = chip_exchange [0xd5; 0x03; b0; b1; b2; b3] ++ rest ->
  is_byte b0 -> is_byte b1 -> is_byte b2 -> is_byte b3 ->
  exists w',
    pn532_firmware_ver w = (be32 b0 b1 b2 b3, w')
    /\ miso w' = rest /\ nss_level (trace w') = true.
Proof.
  intros Hm H0 H1 H2 H3.
  destruct (exchange_frame 0x02 [] 0 (uninit 4 w) [b0; b1; b2; b3] 4 rest w Hm)
    as (w1 & w' & E1 & S1 & E2 & M2 & _ & N2);
    [byte_list|vm_compute; split; [discriminate|reflexivity]
    |vm_compute; discriminate|lia|].
  unfold pn532_firmware_ver. rewrite E1. cbn [Z.ltb Z.compare].
  assert (U : uint32 0 = 0 /\ uninit 4 w1 = uninit 4 w).
  { split; [reflexivity|]. unfold uninit.
    destruct S1 as (_ & _ & _ & ->). reflexivity. }
  destruct U as [_ ->]. rewrite E2.
  cbn [length Z.of_nat Pos.of_succ_nat Pos.succ Z.leb Z.compare Pos.compare
       Pos.compare_cont andb Z.ltb].
  exists w'. split; [|split; assumption].
  f_equal. rewrite store_all by (rewrite uninit_length; cbn; lia).
  change (take 4 [b0; b1; b2; b3]) with [b0; b1; b2; b3].
  now apply version_fold.
Qed.

(** X18: when the chip acknowledges the firmware query and answers with
    the frame D5 03 b0 b1 b2 b3, [pn532_firmware_ver] returns the four
    bytes as one big-endian number. *)
Theorem firmware_ver_packs_big_endian (b0 b1 b2 b3 : Z)
  (rest : list (list Z)) (w : world) :
  miso w = chip_exchange [0xd5; 0x03; b0; b1; b2; b3] ++ rest ->
  is_byte b0 -> is_byte b1 -> is_byte b2 -> is_byte b3 ->
  fst (pn532_firmware_ver w)
  = b0 * 16777216 + b1 * 65536 + b2 * 256 + b3.
Proof.
  intros Hm H0 H1 H2 H3.
  destruct (firmware_ver_exchange b0 b1 b2 b3 rest w Hm H0 H1 H2 H3)
    as (w' & E & _).
  rewrite E. reflexivity.
Qed.

Lemma firmware_ver_packs_big_endian_witness :
  fst (pn532_firmware_ver
         (boot (chip_exchange [0xd5; 0x03; 0x32; 0x01; 0x06; 0x07] ++ [])
               false))
  = 0x32 * 16777216 + 0x01 * 65536 + 0x06 * 256 + 0x07.
Proof.
  apply (firmware_ver_packs_big_endian 0x32 0x01 0x06 0x07 []
           (boot (chip_exchange [0xd5; 0x03; 0x32; 0x01; 0x06; 0x07] ++ [])
                 false)).
  - reflexivity.
  - unfold is_byte. lia.
  - unfold is_byte. lia.
  - unfold is_byte. lia.
  - unfold is_byte. lia.
Defined.

(** X19: with the same chip behaviour, [pn532_init] reports the reader as
    present exactly when that number lies strictly between 0 and
    0x7fffffff. *)
Theorem init_accepts_version_in_range (b0 b1 b2 b3 : Z)
  (rest : list (list Z)) (w : world) :
  miso w = chip_exchange [0xd5; 0x03; b0; b1; b2; b3] ++ rest ->
  is_byte b0 -> is_byte b1 -> is_byte b2 -> is_byte b3 ->
  fst (pn532_init w) = true
  <-> 0 < b0 * 16777216 + b1 * 65536 + b2 * 256 + b3 < 0x7fffffff.
Proof.
  intros Hm H0 H1 H2 H3. unfold pn532_init.
  destruct (firmware_ver_exchange b0 b1 b2 b3 rest
              (gpio_put true (sleep_ms_rtos 2 (gpio_put false
                                                 (gpio_put true w))))
              Hm H0 H1 H2 H3) as (w' & E & _).
  rewrite E. cbn [fst]. unfold be32.
  rewrite andb_true_iff, Z.gtb_ltb, !Z.ltb_lt. reflexivity.
Qed.

Lemma init_accepts_version_in_range_witness :
  fst (pn532_init
         (boot (chip_exchange [0xd5; 0x03; 0x80; 0x01; 0x06; 0x07] ++ [])
               false))
  = true
  <-> 0 < 0x80 * 16777216 + 0x01 * 65536 + 0x06 * 256 + 0x07 < 0x7fffffff.
Proof.
  apply (init_accepts_version_in_range 0x80 0x01 0x06 0x07 []
           (boot (chip_exchange [0xd5; 0x03; 0x80; 0x01; 0x06; 0x07] ++ [])
                 false)).
  - reflexivity.
  - unfold is_byte. lia.
  - unfold is_byte. lia.
  - unfold is_byte. lia.
  - unfold is_byte. lia.
Defined.

(** *** RF field *)

(** X20: when the chip acknowledges and answers the RF configuration
    command with a well-formed frame, [pn532_set_rf_field] returns true
    exactly when the body of the answer has one byte; an answer without a
    body counts as a failure. *)
Theorem set_rf_field_needs_one_byte_body (auto_rf on_off : bool)
  (body : list Z) (rest : list (list Z)) (w : world) :
  miso w = chip_exchange ([0xd5; 0x33] ++ body) ++ rest ->
  Forall is_byte body ->
  Z.of_nat (length body) <= 251 ->
  fst (pn532_set_rf_field auto_rf on_off w)
  = (Z.of_nat (length body) =? 1).
Proof.
  intros Hm Hb Hn. unfold pn532_set_rf_field.
  set (param := [1; Z.lor _ _]).
  destruct (exchange_frame 0x32 param 2 (uninit 1 w) body 1 rest w Hm Hb)
    as (w1 & w' & E1 & S1 & E2 & _);
    [vm_compute; split; [discriminate|reflexivity]|exact Hn|lia|].
  rewrite E1.
  assert (U : uninit 1 w1 = uninit 1 w)
    by (unfold uninit; destruct S1 as (_ & _ & _ & ->); reflexivity).
  rewrite U, E2. cbn [fst].
  destruct (Z.leb_spec 1 (Z.of_nat (length body)));
    destruct (Z.leb_spec (Z.of_nat (length body)) 1);
    destruct (Z.eqb_spec (Z.of_nat (length body)) 1);
    cbn [andb]; try lia; reflexivity.
Qed.

Lemma set_rf_field_needs_one_byte_body_witness :
  fst (pn532_set_rf_field true true
         (boot (chip_exchange ([0xd5; 0x33] ++ []) ++ []) false))
  = (Z.of_nat (length (@nil Z)) =? 1).
Proof.
  apply (set_rf_field_needs_one_byte_body true true [] []
           (boot (chip_exchange ([0xd5; 0x33] ++ []) ++ []) false)).
  - reflexivity.
  - constructor.
  - cbn. lia.
Defined.

(** *** MIFARE *)

Lemma at_store_head (body rb : list Z) (i : Z) :
  0 <= i < Z.of_nat (length body) -> at_ (store body rb) i = at_ body i.
Proof. intros H. apply at_store_lt. lia. Qed.

Lemma drop_store (n : Z) (body rb : list Z) :
  0 <= n <= Z.of_nat (length body) ->
  drop n (store body rb) = drop n body ++ skipn (length body) rb.
Proof.
  intros H. unfold drop, store. rewrite skipn_app.
  replace (Z.to_nat n - length body)%nat with 0%nat by lia. reflexivity.
Qed.

Lemma take_exact (n : Z) (a b : list Z) :
  Z.of_nat (length a) = n -> take n (a ++ b) = a.
Proof.
  intros H. unfold take. replace (Z.to_nat n) with (length a) by lia.
  rewrite firstn_app, firstn_all, Nat.sub_diag, firstn_0. apply app_nil_r.
Qed.

Lemma drop_length (n : Z) (l : list Z) :
  0 <= n -> Z.of_nat (length (drop n l)) = Z.max 0 (Z.of_nat (length l) - n).
Proof. intros H. unfold drop. rewrite length_skipn. lia. Qed.



(** X22: when the chip acknowledges the read command and answers with a
    well-formed frame, [pn532_mifare_read] succeeds exactly when the body
    has 17 bytes of which the first, the status, is 0; it then hands over
    the other 16.  In every other case it returns false and leaves the
    caller's block as it was. *)
Theorem mifare_read_on_frame (block_id : Z) (block_data body : list Z)
  (rest : list (list Z)) (w : world) :
  miso w = chip_exchange ([0xd5; 0x41] ++ body) ++ rest ->
  Forall is_byte body ->
  Z.of_nat (length body) <= 251 ->
  fst (pn532_mifare_read block_id block_data w)
  = (if (Z.of_nat (length body) =? 17) && (at_ body 0 =? 0)
     then (true, store (drop 1 body) block_data)
     else (false, block_data)).
Proof.
  intros Hm Hb Hn. unfold pn532_mifare_read.
  destruct (exchange_frame 0x40 [1; 0x30; block_id] 3
              (readbuf w) body 255 rest w Hm Hb)
    as (w1 & w' & E1 & S1 & E2 & _);
    [vm_compute; split; [discriminate|reflexivity]|lia|lia|].
  rewrite E1. cbn [Z.ltb Z.compare].
  destruct S1 as (-> & _). rewrite E2.
  destruct (Z.eqb_spec (Z.of_nat (length body)) 17) as [E17|N17].
  - assert (C : (1 <=? Z.of_nat (length body))
                && (Z.of_nat (length body) <=? 255) = true)
      by (apply andb_true_iff; split; apply Z.leb_le; lia).
    rewrite C, E17. rewrite at_store_head by lia. cbn [Z.eqb Pos.eqb negb].
    rewrite orb_false_r. cbn [andb].
    destruct (at_ body 0 =? 0); cbn [negb fst]; [|reflexivity].
    rewrite drop_store by lia.
    rewrite take_exact by (rewrite drop_length; lia).
    reflexivity.
  - cbn [andb].
    assert (R : ((if (1 <=? Z.of_nat (length body))
                      && (Z.of_nat (length body) <=? 255)
                  then Z.of_nat (length body) else -1) =? 17) = false).
    { destruct (andb _ _); apply Z.eqb_neq; lia. }
    rewrite R. cbn [negb]. rewrite orb_true_r. reflexivity.
Qed.

Lemma mifare_read_on_frame_witness :
  fst (pn532_mifare_read 4 (repeat 0xee 16)
         (boot (chip_exchange ([0xd5; 0x41] ++ 0 :: repeat 0x5a 15) ++ [])
               false))
  = (if (Z.of_nat (length (0 :: repeat 0x5a 15)) =? 17)
        && (at_ (0 :: repeat 0x5a 15) 0 =? 0)
     then (true, store (drop 1 (0 :: repeat 0x5a 15)) (repeat 0xee 16))
     else (false, repeat 0xee 16)).
Proof.
  apply (mifare_read_on_frame 4 (repeat 0xee 16) (0 :: repeat 0x5a 15) []
           (boot (chip_exchange ([0xd5; 0x41] ++ 0 :: repeat 0x5a 15) ++ [])
                 false)).
  - reflexivity.
  - byte_list.
  - cbn. lia.
Defined.




(** *** FeliCa *)

Lemma take_app_le (n : Z) (a b : list Z) :
  n <= Z.of_nat (length a) -> take n (a ++ b) = take n a.
Proof.
  intros H. unfold take. rewrite firstn_app.
  replace (Z.to_nat n - length a)%nat with 0%nat by lia.
  rewrite firstn_0. apply app_nil_r.
Qed.

Lemma drop_drop (a b : Z) (l : list Z) :
  0 <= a -> 0 <= b -> drop a (drop b l) = drop (a + b) l.
Proof.
  intros Ha Hb. unfold drop. rewrite skipn_skipn. f_equal. lia.
Qed.

(** X24: when the chip acknowledges the FeliCa poll and answers with a
    well-formed frame, [pn532_poll_felica] without cache succeeds exactly
    when the body has 22 bytes, its target count (byte 0) is 1 and its
    response length (byte 2) is 20.  It then hands over the bytes 4 to 11
    as IDm, 12 to 19 as PMm and 20 to 21 as system code, and stores them in
    the poll cache together with the chip's target handle (byte 1). *)
Theorem poll_felica_on_frame (uid pmm_out sc body : list Z)
  (rest : list (list Z)) (w : world) :
  miso w = chip_exchange ([0xd5; 0x4b] ++ body) ++ rest ->
  Forall is_byte body ->
  Z.of_nat (length body) <= 251 ->
  fst (pn532_poll_felica uid pmm_out sc false w)
  = (if (Z.of_nat (length body) =? 22)
        && (at_ body 0 =? 1) && (at_ body 2 =? 20)
     then (true,
           store (take 8 (drop 4 body)) uid,
           store (take 8 (drop 12 body)) pmm_out,
           store (take 2 (drop 20 body)) sc)
     else (false, uid, pmm_out, sc))
  /\ ((Z.of_nat (length body) =? 22)
      && (at_ body 0 =? 1) && (at_ body 2 =? 20) = true ->
      felica_poll_cache (snd (pn532_poll_felica uid pmm_out sc false w))
      = mkCache (take 8 (drop 4 body)) (take 8 (drop 12 body))
                (take 2 (drop 20 body)) (at_ body 1)).
Proof.
  intros Hm Hb Hn. unfold pn532_poll_felica.
  destruct (exchange_frame 0x4a [1; 1; 0; 0xff; 0xff; 1; 0] 7
              (readbuf w) body 255 rest w Hm Hb)
    as (w1 & w' & E1 & S1 & E2 & _);
    [vm_compute; split; [discriminate|reflexivity]|lia|lia|].
  rewrite E1. cbn [Z.ltb Z.compare].
  destruct S1 as (-> & _). rewrite E2.
  destruct (Z.eqb_spec (Z.of_nat (length body)) 22) as [E22|N22].
  - assert (C : (1 <=? Z.of_nat (length body))
                && (Z.of_nat (length body) <=? 255) = true)
      by (apply andb_true_iff; split; apply Z.leb_le; lia).
    rewrite C, E22. rewrite !at_store_head by lia.
    cbn [Z.eqb Pos.eqb negb orb andb].
    assert (D4 : drop 4 (store body (readbuf w))
                 = drop 4 body ++ skipn (length body) (readbuf w))
      by (apply drop_store; lia).
    assert (D12 : drop 12 (store body (readbuf w))
                  = drop 12 body ++ skipn (length body) (readbuf w))
      by (apply drop_store; lia).
    assert (D20 : drop 20 (store body (readbuf w))
                  = drop 20 body ++ skipn (length body) (readbuf w))
      by (apply drop_store; lia).
    assert (T18 : take 18 (drop 4 (store body (readbuf w))) = drop 4 body)
      by (rewrite D4; apply take_exact; rewrite drop_length; lia).
    rewrite T18, D4, D12, D20.
    rewrite !take_app_le by (rewrite drop_length; lia).
    rewrite !drop_drop by lia. cbn [Z.add Pos.add Pos.succ].
    destruct (at_ body 0 =? 1); cbn [negb orb andb];
      [|split; [reflexivity|discriminate]].
    destruct (at_ body 2 =? 20); cbn [negb fst snd];
      [|split; [reflexivity|discriminate]].
    split; [reflexivity|]. intros _. reflexivity.
  - cbn [andb].
    assert (R : ((if (1 <=? Z.of_nat (length body))
                      && (Z.of_nat (length body) <=? 255)
                  then Z.of_nat (length body) else -1) =? 22) = false).
    { destruct (andb _ _); apply Z.eqb_neq; lia. }
    rewrite R. cbn [negb orb fst]. split; [reflexivity|discriminate].
Qed.

Lemma poll_felica_on_frame_witness :
  fst (pn532_poll_felica (repeat 0 8) (repeat 0 8) (repeat 0 2) false
         (boot (chip_exchange ([0xd5; 0x4b] ++ drop 2 felica_poll_answer)
                  ++ [])
               false))
  = (if (Z.of_nat (length (drop 2 felica_poll_answer)) =? 22)
        && (at_ (drop 2 felica_poll_answer) 0 =? 1)
        && (at_ (drop 2 felica_poll_answer) 2 =? 20)
     then (true,
           store (take 8 (drop 4 (drop 2 felica_poll_answer))) (repeat 0 8),
           store (take 8 (drop 12 (drop 2 felica_poll_answer))) (repeat 0 8),
           store (take 2 (drop 20 (drop 2 felica_poll_answer))) (repeat 0 2))
     else (false, repeat 0 8, repeat 0 8, repeat 0 2))
  /\ ((Z.of_nat (length (drop 2 felica_poll_answer)) =? 22)
      && (at_ (drop 2 felica_poll_answer) 0 =? 1)
      && (at_ (drop 2 felica_poll_answer) 2 =? 20) = true ->
      felica_poll_cache
        (snd (pn532_poll_felica (repeat 0 8) (repeat 0 8) (repeat 0 2) false
                (boot (chip_exchange ([0xd5; 0x4b]
                                        ++ drop 2 felica_poll_answer)
                         ++ [])
                      false)))
      = mkCache (take 8 (drop 4 (drop 2 felica_poll_answer)))
                (take 8 (drop 12 (drop 2 felica_poll_answer)))
                (take 2 (drop 20 (drop 2 felica_poll_answer)))
                (at_ (drop 2 felica_poll_answer) 1)).
Proof.
  apply (poll_felica_on_frame (repeat 0 8) (repeat 0 8) (repeat 0 2)
           (drop 2 felica_poll_answer) []).
  - reflexivity.
  - vm_compute. byte_list.
  - vm_compute. discriminate.
Defined.








(** *** Switching the RF field *)




